(** * License-plate recognition pipeline: a shallow embedding

    The development follows the four source modules of
    [plate_recognition_project/src]:

    - [PlateProcessor/yolo_detector.py]  (module [YoloDetector]),
    - [TextExtraction/ocr_reader.py]     (module [OcrReader]),
    - [core/workflow.py]                 (module [Workflow]),
    - [app.py]                           (module [App]).

    Python values that the code inspects dynamically ([None], tuples, a
    float versus a list) are given small inductive types; Python exceptions
    are threaded through an error monad; the third-party collaborators
    (the YOLO weights, the OCR model, OpenCV, the file system) are fields of
    a record [world], so that every function below is executable once a
    world is fixed. *)

From Stdlib Require Import ZArith QArith Qround List String Ascii Bool Lia Lqa.
Import ListNotations.

Open Scope string_scope.

(** ** Python runtime *)

Module Py.

(** Instances of [Exception]: what [except Exception] catches. *)
Inductive exception : Type :=
| TypeError (msg : string)
| ValueError (msg : string)
| IndexError (msg : string)
| CvError (msg : string)
| LibraryError (msg : string).

(** What a call can raise.  [SystemExit] derives from [BaseException]
    only, so [except Exception] lets it through. *)
Inductive raised : Type :=
| Exc (e : exception)
| SystemExit (msg : string).

Inductive outcome (A : Type) : Type :=
| Ok (a : A)
| Raise (r : raised).
Arguments Ok {A} a.
Arguments Raise {A} r.

(** A call into a third-party library either yields a value or fails with
    an instance of [Exception] ([cv2.error], [RuntimeError], ...).
    Interpreter-level interruptions are outside the model. *)
Inductive result (A : Type) : Type :=
| Val (a : A)
| Err (e : exception).
Arguments Val {A} a.
Arguments Err {A} e.

Definition ret {A} (a : A) : outcome A := Ok a.

Definition bind {A B} (m : outcome A) (k : A -> outcome B) : outcome B :=
  match m with
  | Ok a => k a
  | Raise r => Raise r
  end.

Definition call {A} (r : result A) : outcome A :=
  match r with
  | Val a => Ok a
  | Err e => Raise (Exc e)
  end.

(** [try: body  except Exception as e: handler e] *)
Definition try_except {A} (body : outcome A) (handler : exception -> outcome A)
  : outcome A :=
  match body with
  | Raise (Exc e) => handler e
  | _ => body
  end.

(** [a, b = v] where [v] is [None] or a 2-tuple. *)
Definition unpack2 {A B} (v : option (A * B)) : outcome (A * B) :=
  match v with
  | Some p => Ok p
  | None => Raise (Exc (TypeError "cannot unpack non-iterable NoneType object"))
  end.

(** [l[0]] on a list. *)
Definition getitem0 {A} (l : list A) : outcome A :=
  match l with
  | a :: _ => Ok a
  | [] => Raise (Exc (IndexError "list index out of range"))
  end.

(** [int(x)] on a finite float: truncation toward zero. *)
Definition int (x : Q) : Z := Z.quot (Qnum x) (Z.pos (Qden x)).

(** [s.replace(old, new)] for a non-empty [old]: occurrences are replaced
    left to right without overlap.  [skip] counts the characters of the
    occurrence being consumed. *)
Fixpoint replace_from (old new : string) (skip : nat) (s : string) : string :=
  match s with
  | EmptyString => EmptyString
  | String c s' =>
      match skip with
      | S k => replace_from old new k s'
      | O =>
          if String.prefix old s
          then new ++ replace_from old new (String.length old - 1) s'
          else String c (replace_from old new 0 s')
      end
  end.

Definition replace (old new s : string) : string := replace_from old new 0 s.

(** [sep.join(parts)] *)
Definition join (sep : string) (parts : list string) : string :=
  String.concat sep parts.

(** [x in l] for strings. *)
Definition str_in (x : string) (l : list string) : bool :=
  existsb (String.eqb x) l.

End Py.

Export Py.

Declare Scope py_scope.
Delimit Scope py_scope with py.
Notation "x <- m ;; k" := (bind m (fun x => k))
  (at level 61, m at next level, right associativity) : py_scope.
Notation "' pat <- m ;; k" := (bind m (fun x => match x with pat => k end))
  (at level 61, pat pattern, m at next level, right associativity) : py_scope.
Open Scope py_scope.

(** ** Images (numpy arrays of shape (rows, cols, 3)) and OpenCV *)

Module Img.

Definition pixel : Type := (Z * Z * Z)%type.

Record image : Type := mkImage {
  rows : nat;
  cols : nat;
  px : nat -> nat -> pixel
}.

(** [image.shape[:2]] *)
Definition shape (im : image) : nat * nat := (rows im, cols im).

(** [image.size] *)
Definition size (im : image) : nat := rows im * cols im * 3.

(** Bound of a slice [a:b] over an axis of length [n]: a negative index
    counts from the end, and both ends are clipped to the axis. *)
Definition slice_index (n : nat) (i : Z) : Z :=
  if (i <? 0)%Z then Z.max 0 (i + Z.of_nat n) else Z.min i (Z.of_nat n).

(** Offset and length of the slice [start:stop]. *)
Definition slice_range (n : nat) (start stop : Z) : nat * nat :=
  let a := slice_index n start in
  let b := slice_index n stop in
  (Z.to_nat a, Z.to_nat (b - a)).

(** [image[y1:y2, x1:x2]] *)
Definition slice2 (im : image) (y1 y2 x1 x2 : Z) : image :=
  let '(r0, nr) := slice_range (rows im) y1 y2 in
  let '(c0, nc) := slice_range (cols im) x1 x2 in
  {| rows := nr; cols := nc; px := fun r c => px im (r0 + r) (c0 + c) |}.

(** [cv2.resize(src, dsize, interpolation=cv2.INTER_LINEAR)] with
    [dsize = (width, height)].  OpenCV asserts that the source and the
    requested size are not empty; the result has [height] rows and
    [width] columns.  The interpolated pixel values are left to [interp]. *)
Definition resize (interp : image -> nat -> nat -> nat -> nat -> pixel)
    (src : image) (dsize : Z * Z) : result image :=
  if (rows src =? 0)%nat || (cols src =? 0)%nat
  then Err (CvError "(-215:Assertion failed) !ssize.empty() in function 'resize'")
  else if (fst dsize <=? 0)%Z || (snd dsize <=? 0)%Z
  then Err (CvError "(-215:Assertion failed) !dsize.empty() in function 'resize'")
  else
    let h := Z.to_nat (snd dsize) in
    let w := Z.to_nat (fst dsize) in
    Val {| rows := h; cols := w; px := interp src h w |}.

End Img.

Export Img.

(** ** The collaborators *)

(** One entry of the list an ultralytics model returns: the rows of
    [r.boxes.xyxy], [r.boxes.cls] and [r.boxes.conf].  Coordinates and
    confidences are floats; they are modelled by rationals, exact where the
    machine rounds. *)
Record yolo_result : Type := mkResult {
  r_xyxy : list (Q * Q * Q * Q);
  r_cls : list Q;
  r_conf : list Q
}.

(** A loaded model: [model(image, classes=[...])]. *)
Definition yolo_model : Type := image -> list Z -> result (list yolo_result).

(** What [LicensePlateRecognizer.run] hands back: a string, or a list (or
    tuple) of strings. *)
Inductive ocr_text : Type :=
| TStr (s : string)
| TSeq (parts : list string).

(** Truth value of such a value: empty strings and empty sequences are false. *)
Definition truthy (t : ocr_text) : bool :=
  match t with
  | TStr s => negb (s =? "")
  | TSeq parts => match parts with [] => false | _ :: _ => true end
  end.

Record world : Type := mkWorld {
  path_exists : string -> bool;                      (* os.path.exists *)
  YOLO : string -> result yolo_model;                (* ultralytics.YOLO *)
  interp : image -> nat -> nat -> nat -> nat -> pixel;  (* INTER_LINEAR *)
  show_image : image -> string -> Z -> result unit;  (* utils.image_utils *)
  imdecode : list Z -> result (option image)         (* cv2.imdecode *)
}.

(** ** config/settings.py *)

Module Settings.
Definition YOLO_EXPAND_RATIO : Q := 1 # 1000.
Definition YOLO_OUTPUT_SIZE : Z * Z := (512, 256)%Z.
Definition SHOW_IMAGE_DELAY_MS : Z := 2000%Z.
End Settings.

(** ** PlateProcessor/yolo_detector.py *)

Module YoloDetector.

Record Box : Type := mkBox {
  xyxy : list (Q * Q * Q * Q);   (* shape (1, 4) *)
  cls : list Z;
  conf : list Q
}.

(** [Box.__init__] *)
Definition Box_init (xyxy : Q * Q * Q * Q) (cls : Z) (conf : Q) : Box :=
  {| xyxy := [xyxy]; cls := [cls]; conf := [conf] |}.

Record YOLODetector : Type := mkDetector {
  model : yolo_model;
  plate_class_id : Z
}.

(** [YOLODetector.__init__] *)
Definition YOLODetector_init (w : world) (model_path : string)
    (plate_class_id : Z) : outcome YOLODetector :=
  m <- call (YOLO w model_path) ;;
  ret {| model := m; plate_class_id := plate_class_id |}.

(** [zip(a, b, c)] *)
Fixpoint zip3 {A B C} (a : list A) (b : list B) (c : list C)
  : list (A * B * C) :=
  match a, b, c with
  | x :: a', y :: b', z :: c' => (x, y, z) :: zip3 a' b' c'
  | _, _, _ => []
  end.

Definition detect_plate (self : YOLODetector) (image : image)
  : outcome (list Box) :=
  results <- call (model self image [plate_class_id self]) ;;
  ret (flat_map
         (fun r =>
            map (fun '(xyxy, cls_id, conf) => Box_init xyxy (int cls_id) conf)
                (zip3 (r_xyxy r) (r_cls r) (r_conf r)))
         results).

Definition crop_plate (image : image) (box : Q * Q * Q * Q) : Img.image :=
  let '(x1, y1, x2, y2) := box in
  let '(x1, y1, x2, y2) := (int x1, int y1, int x2, int y2) in
  slice2 image y1 y2 x1 x2.

(** The expansion and clamping of the first box inside
    [detect_plate_yolo]; [h] and [w] are [image.shape[:2]]. *)
Definition expanded_box (box : Q * Q * Q * Q) (expand_ratio : Q) (h w : nat)
  : Z * Z * Z * Z :=
  let '(x1, y1, x2, y2) := box in
  let dx := (x2 - x1) * expand_ratio in
  let dy := (y2 - y1) * expand_ratio in
  let x1_new := Z.max 0 (int (x1 - dx)) in
  let y1_new := Z.max 0 (int (y1 - dy)) in
  let x2_new := Z.min (Z.of_nat w) (int (x2 + dx)) in
  let y2_new := Z.min (Z.of_nat h) (int (y2 + dy)) in
  (x1_new, y1_new, x2_new, y2_new).

Definition detect_plate_yolo (wd : world) (image : image)
    (model_path : string) (expand_ratio : Q) (output_size : Z * Z)
  : outcome (option (Img.image * list Q)) :=
  try_except
    (if negb (path_exists wd model_path) then ret None
     else
       detector <- YOLODetector_init wd model_path 0 ;;
       boxes <- detect_plate detector image ;;
       match boxes with
       | [] => ret None
       | box0 :: _ =>
           row <- getitem0 (xyxy box0) ;;
           let '(h, w) := shape image in
           let conf := conf box0 in
           let '(x1_new, y1_new, x2_new, y2_new) :=
             expanded_box row expand_ratio h w in
           let cropped :=
             crop_plate image
               (inject_Z x1_new, inject_Z y1_new,
                inject_Z x2_new, inject_Z y2_new) in
           cropped_resized <- call (resize (interp wd) cropped output_size) ;;
           ret (Some (cropped_resized, conf))
       end)
    (fun e => ret None).

End YoloDetector.

Export YoloDetector.

(** ** TextExtraction/ocr_reader.py *)

Module OcrReader.

(** [fast_plate_ocr.LicensePlateRecognizer], already constructed. *)
Record LicensePlateRecognizer : Type := mkRecognizer {
  run : image -> result ocr_text
}.

Record OCRReader : Type := mkReader {
  ocr : LicensePlateRecognizer
}.

Definition extract_text (self : OCRReader) (img : option image)
  : outcome (option (ocr_text * Q)) :=
  match img with
  | None => ret None
  | Some img =>
      if (size img =? 0)%nat then ret None
      else
        match run (ocr self) img with
        | Err e => ret None                 (* except Exception: return None *)
        | Val text =>
            let confidence : Q := if truthy text then 100 else 0 in
            ret (if truthy text then Some (text, confidence) else None)
        end
  end.

End OcrReader.

(** ** core/workflow.py *)

Module Workflow.

Import Settings.

(** The second component of what [process] returns: the float [0.0] of the
    "No text detected." branch, or the list a [Box] keeps in [conf]. *)
Inductive conf_value : Type :=
| CFloat (x : Q)
| CList (l : list Q).

(** [f"{confidence:.2f}"]: a list has no such format. *)
Definition format_2f (c : conf_value) : outcome unit :=
  match c with
  | CFloat _ => ret tt
  | CList _ =>
      Raise (Exc (TypeError "unsupported format string passed to list.__format__"))
  end.

Record PlateRecognizer : Type := mkPlateRecognizer {
  yolo_model_path : string;
  ocr : OcrReader.OCRReader
}.

Definition process (wd : world) (self : PlateRecognizer)
    (image : option image) (DEBUG : bool)
  : outcome (option (ocr_text * conf_value)) :=
  match image with
  | None => Raise (SystemExit "ERROR: Input image is invalid.")
  | Some image =>
      if (size image =? 0)%nat
      then Raise (SystemExit "ERROR: Input image is invalid.")
      else
        (* Step 1: YOLO detection, with the result unpacked in place *)
        r <- detect_plate_yolo wd image (yolo_model_path self)
               YOLO_EXPAND_RATIO YOLO_OUTPUT_SIZE ;;
        '(crop, confidence) <- unpack2 r ;;
        (* the first component is the array [cv2.resize] returned *)
        let cropped_plate : option Img.image := Some crop in
        match cropped_plate with
        | None => ret (Some (TStr "No text detected.", CFloat 0))
        | Some input_img =>
            (* Step 2: show the crop when debugging *)
            _ <- (if DEBUG
                  then call (show_image wd input_img "Detected Plate"
                               SHOW_IMAGE_DELAY_MS)
                  else ret tt) ;;
            (* Step 3: OCR *)
            result <- OcrReader.extract_text (ocr self) (Some input_img) ;;
            match result with
            | Some (text, _) =>
                _ <- (if DEBUG then format_2f (CList confidence) else ret tt) ;;
                ret (Some (text, CList confidence))
            | None => ret None
            end
        end
  end.

End Workflow.

Export Workflow.

(** ** app.py *)

Module App.

(** An uploaded file (werkzeug's [FileStorage]); it is true when it has
    a file name. *)
Record FileStorage : Type := mkFile {
  filename : string;
  stream : list Z
}.

Record Request : Type := mkRequest {
  files : list (string * FileStorage)
}.

(** [request.files.get(key)] *)
Definition files_get (request : Request) (key : string) : option FileStorage :=
  option_map snd (find (fun kv => fst kv =? key) (files request)).

Inductive json : Type :=
| JBool (b : bool)
| JStr (s : string)
| JNum (x : Q).

Definition jsonify (d : list (string * json)) : list (string * json) := d.

Definition response : Type := (list (string * json) * Z)%type.

Record PlateAPI : Type := mkAPI {
  recognizer : PlateRecognizer
}.

Definition _normalize_text (text : ocr_text) : string :=
  let raw :=
    match text with
    | TSeq parts => join "" parts
    | TStr s => s
    end in
  let clean :=
    replace "I" "1"
      (replace "i" "1"
         (replace "o" "0"
            (replace "O" "0"
               (replace " " "" (replace "_" "" raw))))) in
  clean.

Definition not_found : response :=
  (jsonify [("success", JBool true); ("plateFound", JBool false)], 200%Z).

Definition recognize (wd : world) (self : PlateAPI) (request : Request)
  : outcome response :=
  try_except
    (match files_get request "image" with
     | None =>
         ret (jsonify [("success", JBool false);
                       ("error", JStr "No image uploaded")], 400%Z)
     | Some img_bytes =>
         if filename img_bytes =? ""
         then ret (jsonify [("success", JBool false);
                            ("error", JStr "No image uploaded")], 400%Z)
         else
           (* Decode image *)
           let np_arr := stream img_bytes in
           image <- call (imdecode wd np_arr) ;;
           match image with
           | None =>
               ret (jsonify [("success", JBool false);
                             ("error", JStr "Invalid image format")], 400%Z)
           | Some image =>
               (* Run recognition *)
               r <- process wd (recognizer self) (Some image) false ;;
               '(text, conf) <- unpack2 r ;;
               confidence <-
                 match conf with
                 | CList l => getitem0 l
                 | CFloat _ =>
                     Raise (Exc (TypeError "'float' object is not subscriptable"))
                 end ;;
               if negb (truthy text) then ret not_found
               else if match text with
                       | TStr s => str_in s ["No text detected."; "________"]
                       | TSeq _ => false
                       end
               then ret not_found
               else if match text with
                       | TSeq parts => join "" parts =? "________"
                       | TStr _ => false
                       end
               then ret not_found
               else
                 let clean_text := _normalize_text text in
                 if clean_text =? "" then ret not_found
                 else
                   ret (jsonify [("success", JBool true);
                                 ("plateFound", JBool true);
                                 ("licenseNumber", JStr clean_text);
                                 ("confidence", JNum confidence)], 200%Z)
           end
     end)
    (fun e =>
       ret (jsonify [("success", JBool false);
                     ("error", JStr "internal_error")], 500%Z)).

(** Lookup of a key in a JSON object. *)
Definition field (key : string) (body : list (string * json)) : option json :=
  option_map snd (find (fun kv => fst kv =? key) body).

End App.

Export App.

(** ** Concrete worlds, used to run the definitions *)

Module Sample.

Definition black : image :=
  {| rows := 50; cols := 100; px := fun _ _ => (0, 0, 0)%Z |}.

(** What resizing any crop of [black] to 512 x 256 gives below. *)
Definition resized : image :=
  {| rows := 256; cols := 512; px := fun _ _ => (0, 0, 0)%Z |}.

(** A model that reports the given boxes, all of class 0. *)
Definition model_of (found : list (Q * Q * Q * Q * Q)) : yolo_model :=
  fun _ _ =>
    Val [ {| r_xyxy := map fst found;
             r_cls := map (fun _ => 0) found;
             r_conf := map snd found |} ].

Definition world_of (m : result yolo_model) : world :=
  {| path_exists := fun _ => true;
     YOLO := fun _ => m;
     interp := fun _ _ _ _ _ => (0, 0, 0)%Z;
     show_image := fun _ _ _ => Val tt;
     imdecode := fun bytes =>
                   Val (match bytes with [] => None | _ :: _ => Some black end) |}.

(** One plate at (10, 20)-(50, 40), confidence 0.87. *)
Definition one_plate : world :=
  world_of (Val (model_of [(10, 20, 50, 40, 87 # 100)])).

(** Nothing of the target class in the picture. *)
Definition no_plate : world := world_of (Val (model_of [])).

(** The weights cannot be loaded. *)
Definition broken_weights : world :=
  world_of (Err (LibraryError "invalid weights file")).

(** The weights file is not where the recognizer looks for it. *)
Definition no_weights : world :=
  {| path_exists := fun _ => false;
     YOLO := fun _ => Err (LibraryError "no such file");
     interp := interp one_plate;
     show_image := show_image one_plate;
     imdecode := imdecode one_plate |}.

(** The weights load, inference fails. *)
Definition broken_inference : world :=
  world_of (Val (fun _ _ => Err (LibraryError "inference failed"))).

(** A box to the right of the picture. *)
Definition plate_outside : world :=
  world_of (Val (model_of [(150, 10, 160, 20, 87 # 100)])).

Definition reader_of (r : result ocr_text) : OcrReader.OCRReader :=
  {| OcrReader.ocr := {| OcrReader.run := fun _ => r |} |}.

Definition api_of (r : result ocr_text) : PlateAPI :=
  {| recognizer := {| yolo_model_path := "src/models/best.pt";
                      ocr := reader_of r |} |}.

Definition upload : Request :=
  {| files := [("image", {| filename := "car.jpg"; stream := [255; 216; 255]%Z |})] |}.

End Sample.

(** ** Start-up: the constructors and the paths of config/settings.py *)

Module Startup.

(** [s.startswith("/")] *)
Definition startswith_sep (s : string) : bool := String.prefix "/" s.

(** [s.endswith("/")] *)
Fixpoint endswith_sep (s : string) : bool :=
  match s with
  | EmptyString => false
  | String c EmptyString => Ascii.eqb c "/"
  | String _ s' => endswith_sep s'
  end.

(** [os.path.join(a, *p)] on a POSIX system: a component that starts with
    the separator discards what was joined before it. *)
Definition os_path_join (a : string) (p : list string) : string :=
  fold_left
    (fun path b =>
       if startswith_sep b then b
       else if (path =? "") || endswith_sep path then path ++ b
       else path ++ "/" ++ b)
    p a.

(** [YOLO_MODEL_PATH] of config/settings.py; [SRC_DIR] is the absolute
    path of the [src] directory. *)
Definition YOLO_MODEL_PATH (SRC_DIR : string) : string :=
  os_path_join SRC_DIR ["models"; "best.pt"].

Definition OCR_MODEL_NAME : string := "cct-xs-v1-global-model".

(** [OCRReader.__init__]; [LicensePlateRecognizer] is the constructor of
    fast_plate_ocr. *)
Definition OCRReader_init
    (LicensePlateRecognizer : string -> result OcrReader.LicensePlateRecognizer)
    (model_name : string) : outcome OcrReader.OCRReader :=
  ocr <- call (LicensePlateRecognizer model_name) ;;
  ret {| OcrReader.ocr := ocr |}.

(** [PlateRecognizer.__init__]; [base_dir] is the directory of
    core/workflow.py. *)
Definition PlateRecognizer_init (base_dir : string)
    (LicensePlateRecognizer : string -> result OcrReader.LicensePlateRecognizer)
    (yolo_model_name ocr_model_name : string) : outcome PlateRecognizer :=
  let yolo_model_path :=
    os_path_join base_dir [".."; "models"; yolo_model_name] in
  ocr <- OCRReader_init LicensePlateRecognizer ocr_model_name ;;
  ret {| yolo_model_path := yolo_model_path; ocr := ocr |}.

(** [PlateAPI.__init__], without the Flask application it also creates. *)
Definition PlateAPI_init (base_dir SRC_DIR : string)
    (LicensePlateRecognizer : string -> result OcrReader.LicensePlateRecognizer)
  : outcome PlateAPI :=
  recognizer <- PlateRecognizer_init base_dir LicensePlateRecognizer
                  (YOLO_MODEL_PATH SRC_DIR) OCR_MODEL_NAME ;;
  ret {| recognizer := recognizer |}.

End Startup.

(** ** More concrete values *)

Module Fixtures.

(** A 10 x 10 image whose pixel at row [r], column [c] is [(r, c, 0)]. *)
Definition ramp : image :=
  {| rows := 10; cols := 10;
     px := fun r c => (Z.of_nat r, Z.of_nat c, 0%Z) |}.

(** A model reporting two plates; the first one has the lower confidence. *)
Definition two_plates : world :=
  Sample.world_of
    (Val (Sample.model_of [(10, 20, 50, 40, 60 # 100);
                           (60, 10, 90, 30, 95 # 100)])).

(** An OCR constructor that always succeeds. *)
Definition recognizer_of (r : result ocr_text)
  : string -> result OcrReader.LicensePlateRecognizer :=
  fun _ => Val {| OcrReader.run := fun _ => r |}.

(** An upload whose bytes do not decode (the sample decoder rejects the
    empty buffer). *)
Definition empty_upload : Request :=
  {| files := [("image", {| filename := "car.jpg"; stream := [] |})] |}.

(** An upload without a file name. *)
Definition unnamed_upload : Request :=
  {| files := [("image", {| filename := ""; stream := [255; 216; 255]%Z |})] |}.

(** A decoder that returns an array without pixels. *)
Definition empty_decode : world :=
  {| path_exists := path_exists Sample.one_plate;
     YOLO := YOLO Sample.one_plate;
     interp := interp Sample.one_plate;
     show_image := show_image Sample.one_plate;
     imdecode := fun _ => Val (Some {| rows := 0; cols := 0;
                                       px := fun _ _ => (0, 0, 0)%Z |}) |}.

End Fixtures.

(** ** Vocabulary of the statements *)

(** [occurs a s]: the character [a] appears in [s]. *)
Fixpoint occurs (a : ascii) (s : string) : bool :=
  match s with
  | EmptyString => false
  | String c s' => Ascii.eqb a c || occurs a s'
  end.

(** The characters the replace chain removes or rewrites. *)
Definition rewritten : list ascii :=
  ["_"; " "; "O"; "o"; "i"; "I"]%char.

(** The boxes the detector reports for an image: the weights file exists,
    the detector is constructed and inference returns. *)
Definition detected_boxes (wd : world) (model_path : string) (im : image)
  : option (list Box) :=
  if path_exists wd model_path then
    match YOLODetector_init wd model_path 0 with
    | Ok detector =>
        match detect_plate detector im with
        | Ok boxes => Some boxes
        | Raise _ => None
        end
    | Raise _ => None
    end
  else None.

(** The crop [detect_plate_yolo] hands to [cv2.resize] for a first box
    whose coordinates are [row]. *)
Definition crop_of (im : image) (row : Q * Q * Q * Q) (expand_ratio : Q) : image :=
  let '(x1_new, y1_new, x2_new, y2_new) :=
    expanded_box row expand_ratio (rows im) (cols im) in
  crop_plate im (inject_Z x1_new, inject_Z y1_new, inject_Z x2_new, inject_Z y2_new).

(** The texts the handler treats as "nothing read": the two placeholder
    strings, and a sequence joining to the second one. *)
Definition placeholder (text : ocr_text) : bool :=
  match text with
  | TStr s => str_in s ["No text detected."; "________"]
  | TSeq parts => join "" parts =? "________"
  end.

(** The request carries a named file in its [image] field. *)
Definition uploaded (request : Request) (f : FileStorage) : Prop :=
  files_get request "image" = Some f /\ filename f <> "".

(** The five responses of the handler. *)
Definition no_image_uploaded : response :=
  ([("success", JBool false); ("error", JStr "No image uploaded")], 400%Z).

Definition invalid_image_format : response :=
  ([("success", JBool false); ("error", JStr "Invalid image format")], 400%Z).

Definition internal_error : response :=
  ([("success", JBool false); ("error", JStr "internal_error")], 500%Z).

Definition plate_found (license : string) (confidence : Q) : response :=
  ([("success", JBool true); ("plateFound", JBool true);
    ("licenseNumber", JStr license); ("confidence", JNum confidence)], 200%Z).

(** * Properties *)

(** ** Strings: one-character replacement *)

Section Replace.

Lemma replace_cons (a c : ascii) (new s : string) :
  replace (String a "") new (String c s) =
  if Ascii.eqb a c then new ++ replace (String a "") new s
  else String c (replace (String a "") new s).
Proof.
  unfold replace; simpl.
  destruct (ascii_dec a c) as [->|Hne].
  - rewrite Ascii.eqb_refl. destruct s; reflexivity.
  - apply Ascii.eqb_neq in Hne. rewrite Hne. reflexivity.
Qed.

Lemma occurs_app (a : ascii) (s t : string) :
  occurs a (s ++ t) = occurs a s || occurs a t.
Proof.
  induction s as [|c s IH]; simpl; [reflexivity|].
  rewrite IH. apply orb_assoc.
Qed.

Lemma replace_absent (a : ascii) (new s : string) :
  occurs a s = false -> replace (String a "") new s = s.
Proof.
  induction s as [|c s IH]; intros H; [reflexivity|].
  simpl in H. apply orb_false_iff in H as [Hc Hs].
  rewrite replace_cons, Hc, (IH Hs). reflexivity.
Qed.

Lemma occurs_replace_same (a : ascii) (new s : string) :
  occurs a new = false -> occurs a (replace (String a "") new s) = false.
Proof.
  intros Hnew. induction s as [|c s IH]; [reflexivity|].
  rewrite replace_cons. destruct (Ascii.eqb a c) eqn:E.
  - rewrite occurs_app, Hnew, IH. reflexivity.
  - simpl. rewrite E, IH. reflexivity.
Qed.

Lemma occurs_replace_other (a b : ascii) (new s : string) :
  occurs b s = false -> occurs b new = false ->
  occurs b (replace (String a "") new s) = false.
Proof.
  intros Hs Hnew. induction s as [|c s IH]; [reflexivity|].
  simpl in Hs. apply orb_false_iff in Hs as [Hc Hs].
  rewrite replace_cons. destruct (Ascii.eqb a c).
  - rewrite occurs_app, Hnew, (IH Hs). reflexivity.
  - simpl. rewrite Hc, (IH Hs). reflexivity.
Qed.

End Replace.

(** ** app.py: [_normalize_text] *)

Lemma normalized_clean (text : ocr_text) (a : ascii) :
  In a rewritten -> occurs a (_normalize_text text) = false.
Proof.
  unfold _normalize_text.
  set (raw := match text with TSeq parts => join "" parts | TStr s => s end).
  clearbody raw.
  assert (H1 : occurs "_" (replace "_" "" raw) = false)
    by (apply occurs_replace_same; reflexivity).
  set (s1 := replace "_" "" raw) in *. clearbody s1.
  assert (H2 : occurs " " (replace " " "" s1) = false)
    by (apply occurs_replace_same; reflexivity).
  assert (H1' : occurs "_" (replace " " "" s1) = false)
    by (apply occurs_replace_other; [assumption|reflexivity]).
  set (s2 := replace " " "" s1) in *. clearbody s2.
  assert (H3 : occurs "O" (replace "O" "0" s2) = false)
    by (apply occurs_replace_same; reflexivity).
  assert (H1'' : occurs "_" (replace "O" "0" s2) = false)
    by (apply occurs_replace_other; [assumption|reflexivity]).
  assert (H2' : occurs " " (replace "O" "0" s2) = false)
    by (apply occurs_replace_other; [assumption|reflexivity]).
  set (s3 := replace "O" "0" s2) in *. clearbody s3.
  assert (H4 : occurs "o" (replace "o" "0" s3) = false)
    by (apply occurs_replace_same; reflexivity).
  assert (K1 : occurs "_" (replace "o" "0" s3) = false)
    by (apply occurs_replace_other; [assumption|reflexivity]).
  assert (K2 : occurs " " (replace "o" "0" s3) = false)
    by (apply occurs_replace_other; [assumption|reflexivity]).
  assert (K3 : occurs "O" (replace "o" "0" s3) = false)
    by (apply occurs_replace_other; [assumption|reflexivity]).
  set (s4 := replace "o" "0" s3) in *. clearbody s4.
  assert (H5 : occurs "i" (replace "i" "1" s4) = false)
    by (apply occurs_replace_same; reflexivity).
  assert (L1 : occurs "_" (replace "i" "1" s4) = false)
    by (apply occurs_replace_other; [assumption|reflexivity]).
  assert (L2 : occurs " " (replace "i" "1" s4) = false)
    by (apply occurs_replace_other; [assumption|reflexivity]).
  assert (L3 : occurs "O" (replace "i" "1" s4) = false)
    by (apply occurs_replace_other; [assumption|reflexivity]).
  assert (L4 : occurs "o" (replace "i" "1" s4) = false)
    by (apply occurs_replace_other; [assumption|reflexivity]).
  set (s5 := replace "i" "1" s4) in *. clearbody s5.
  intros Hin. simpl in Hin.
  destruct Hin as [<-|[<-|[<-|[<-|[<-|[<-|[]]]]]]];
    try (apply occurs_replace_other; [assumption|reflexivity]).
  apply occurs_replace_same; reflexivity.
Qed.


(** ** Truncation toward zero *)

Section Truncation.

Local Open Scope Q_scope.

Lemma Qnum_nonneg (q : Q) : 0 <= q <-> (0 <= Qnum q)%Z.
Proof. unfold Qle; simpl. rewrite Z.mul_1_r. reflexivity. Qed.

Lemma Qnum_neg (q : Q) : q < 0 <-> (Qnum q < 0)%Z.
Proof. unfold Qlt; simpl. rewrite Z.mul_1_r. reflexivity. Qed.

Lemma int_floor (q : Q) : (0 <= Qnum q)%Z -> int q = Qfloor q.
Proof.
  intros H. destruct q as [n d]; simpl in *. unfold int; simpl.
  apply Z.quot_div_nonneg; lia.
Qed.

Lemma int_ceiling (q : Q) : (Qnum q <= 0)%Z -> int q = Qceiling q.
Proof.
  intros H. destruct q as [n d]; simpl in *. unfold int, Qceiling; simpl.
  rewrite <- (Z.opp_involutive n) at 1.
  rewrite Z.quot_opp_l by lia.
  f_equal. apply Z.quot_div_nonneg; lia.
Qed.

Lemma int_nonneg (q : Q) : 0 <= q -> (0 <= int q)%Z.
Proof.
  intros H. apply Qnum_nonneg in H. unfold int.
  apply Z.quot_pos; lia.
Qed.

Lemma int_nonpos (q : Q) : q <= 0 -> (int q <= 0)%Z.
Proof.
  intros H. assert (Hn : (Qnum q <= 0)%Z).
  { unfold Qle in H; simpl in H. lia. }
  unfold int. rewrite <- (Z.opp_involutive (Qnum q)).
  rewrite Z.quot_opp_l by lia.
  assert (0 <= - Qnum q ÷ Z.pos (Qden q))%Z by (apply Z.quot_pos; lia).
  lia.
Qed.

Lemma int_mono (a b : Q) : a <= b -> (int a <= int b)%Z.
Proof.
  intros H.
  destruct (Qlt_le_dec a 0) as [Ha|Ha]; destruct (Qlt_le_dec b 0) as [Hb|Hb].
  - rewrite !int_ceiling by (apply Qnum_neg in Ha, Hb; lia).
    now apply Qceiling_resp_le.
  - transitivity 0%Z; [apply int_nonpos; lra | now apply int_nonneg].
  - lra.
  - rewrite !int_floor by (now apply Qnum_nonneg).
    now apply Qfloor_resp_le.
Qed.

Lemma int_inject_Z (z : Z) : int (inject_Z z) = z.
Proof. unfold int; simpl. apply Z.quot_1_r. Qed.

(** One axis of the expansion: the low end is clamped at 0, the high end
    at the length [n] of the axis.  The interval may stick out of the axis
    on either side, as long as it is not wholly beyond one end. *)
Lemma clamp_axis (lo hi ratio : Q) (n : nat) :
  0 <= ratio -> lo <= hi -> lo <= inject_Z (Z.of_nat n) -> 0 <= hi ->
  (0 <= Z.max 0 (int (lo - (hi - lo) * ratio))
     <= Z.min (Z.of_nat n) (int (hi + (hi - lo) * ratio)))%Z.
Proof.
  intros Hr Hle Hlo Hhi.
  assert (Hd : 0 <= (hi - lo) * ratio) by (apply Qmult_le_0_compat; lra).
  set (d := (hi - lo) * ratio) in *. clearbody d.
  assert (H1 : (int (lo - d) <= int (hi + d))%Z) by (apply int_mono; lra).
  assert (H2 : (0 <= int (hi + d))%Z) by (apply int_nonneg; lra).
  assert (H3 : (int (lo - d) <= Z.of_nat n)%Z).
  { rewrite <- (int_inject_Z (Z.of_nat n)). apply int_mono; lra. }
  lia.
Qed.

End Truncation.

(** ** yolo_detector.py: box expansion *)

(** C7 (as the code has it). The low corner of the expanded box is never
    negative and its high corner never exceeds the image; when moreover
    [expand_ratio] is non-negative and the box is ordered and not wholly
    beyond one edge of the image ([x1 <= x2], [x1 <= w], [0 <= x2],
    [y1 <= y2], [y1 <= h], [0 <= y2]; it may stick out of the image), the
    whole chain [0 <= x1_new <= x2_new <= w], [0 <= y1_new <= y2_new <= h]
    holds. *)
Theorem expanded_box_bounds (x1 y1 x2 y2 expand_ratio : Q) (h w : nat)
    (x1_new y1_new x2_new y2_new : Z) :
  expanded_box (x1, y1, x2, y2) expand_ratio h w
    = (x1_new, y1_new, x2_new, y2_new) ->
  (0 <= x1_new /\ x2_new <= Z.of_nat w /\
   0 <= y1_new /\ y2_new <= Z.of_nat h)%Z
  /\ ((0 <= expand_ratio)%Q ->
      (x1 <= x2)%Q -> (x1 <= inject_Z (Z.of_nat w))%Q -> (0 <= x2)%Q ->
      (y1 <= y2)%Q -> (y1 <= inject_Z (Z.of_nat h))%Q -> (0 <= y2)%Q ->
      (0 <= x1_new <= x2_new /\ x2_new <= Z.of_nat w /\
       0 <= y1_new <= y2_new /\ y2_new <= Z.of_nat h)%Z).
Proof.
  unfold expanded_box. intros E. injection E as <- <- <- <-.
  split; [lia|].
  intros Hr Hx Hx1 Hx2 Hy Hy1 Hy2.
  pose proof (clamp_axis x1 x2 expand_ratio w Hr Hx Hx1 Hx2).
  pose proof (clamp_axis y1 y2 expand_ratio h Hr Hy Hy1 Hy2).
  lia.
Qed.

(** A box that sticks out of a 100 x 50 image on the right and at the
    bottom. *)
Lemma expanded_box_bounds_witness :
  expanded_box (80, 30, 120, 60) Settings.YOLO_EXPAND_RATIO 50 100
    = (79, 29, 100, 50)%Z
  /\ (0 <= 79 <= 100 /\ 100 <= 100 /\ 0 <= 29 <= 50 /\ 50 <= 50)%Z.
Proof.
  split; [reflexivity|].
  apply (proj2 (expanded_box_bounds 80 30 120 60 Settings.YOLO_EXPAND_RATIO
                  50 100 79 29 100 50 eq_refl));
    unfold Qle; simpl; lia.
Defined.

(** Each condition on the box is needed: a box wholly to the left of the
    image, a box with its corners exchanged, and a negative
    [expand_ratio] all break the chain on the x axis. *)
Lemma expanded_box_conditions_needed :
  (expanded_box (-60, 10, -50, 20) Settings.YOLO_EXPAND_RATIO 50 100
     = (0, 9, -49, 20)%Z /\ ~ (0 <= -49)%Z)
  /\ (expanded_box (50, 20, 10, 40) Settings.YOLO_EXPAND_RATIO 50 100
        = (50, 19, 9, 40)%Z /\ ~ (50 <= 9)%Z)
  /\ (expanded_box (10, 20, 50, 40) (- (3 # 4)) 50 100
        = (40, 35, 20, 25)%Z /\ ~ (40 <= 20)%Z).
Proof. repeat split; try reflexivity; lia. Qed.

(** C7 (as stated) fails: for a box to the right of a 100 x 50 image the
    expanded [x1_new] is 149, beyond both the width and [x2_new]. *)
Lemma expanded_box_outside_image :
  expanded_box (150, 10, 160, 20) Settings.YOLO_EXPAND_RATIO 50 100
    = (149, 9, 100, 20)%Z
  /\ ~ (0 <= 149 <= 100 /\ 100 <= Z.of_nat 100)%Z.
Proof. split; [reflexivity|lia]. Qed.

(** ** yolo_detector.py: [detect_plate_yolo] *)

Lemma resize_shape (f : image -> nat -> nat -> nat -> nat -> pixel)
    (src out : image) (dsize : Z * Z) :
  resize f src dsize = Val out ->
  (Z.of_nat (cols out), Z.of_nat (rows out)) = dsize
  /\ rows src <> 0%nat /\ cols src <> 0%nat.
Proof.
  unfold resize. destruct dsize as [dw dh]; simpl.
  destruct (rows src =? 0)%nat eqn:Er; [discriminate|].
  destruct (cols src =? 0)%nat eqn:Ec; [discriminate|]. simpl.
  destruct (dw <=? 0)%Z eqn:Ew; [discriminate|].
  destruct (dh <=? 0)%Z eqn:Eh; [discriminate|]. simpl.
  intros [= <-]; simpl.
  apply Z.leb_gt in Ew, Eh. apply Nat.eqb_neq in Er, Ec.
  rewrite !Z2Nat.id by lia. auto.
Qed.

(** Every box [detect_plate] builds goes through [Box.__init__]. *)
Lemma detect_plate_boxes (d : YOLODetector) (im : image) (boxes : list Box) :
  detect_plate d im = Ok boxes ->
  Forall (fun b => exists row c q, b = Box_init row c q) boxes.
Proof.
  unfold detect_plate.
  destruct (model d im [plate_class_id d]) as [results|e]; [|discriminate].
  simpl. intros [= <-].
  apply Forall_forall. intros b Hb.
  apply in_flat_map in Hb as [r [_ Hb]].
  apply in_map_iff in Hb as [[[row c] q] [<- _]].
  eauto.
Qed.

Lemma detected_boxes_init (wd : world) (path : string) (im : image)
    (boxes : list Box) :
  detected_boxes wd path im = Some boxes ->
  Forall (fun b => exists row c q, b = Box_init row c q) boxes.
Proof.
  unfold detected_boxes.
  destruct (path_exists wd path); [|discriminate].
  destruct (YOLODetector_init wd path 0) as [d|]; [|discriminate].
  destruct (detect_plate d im) as [bs|] eqn:E; [|discriminate].
  intros [= <-]. eapply detect_plate_boxes; eassumption.
Qed.

(** When a crop comes back: which box it was cut from, and how. *)
Lemma detect_plate_yolo_some (wd : world) (im : image) (path : string)
    (ratio : Q) (osz : Z * Z) (crop : image) (c : list Q) :
  detect_plate_yolo wd im path ratio osz = Ok (Some (crop, c)) ->
  exists box0 rest row,
    detected_boxes wd path im = Some (box0 :: rest)
    /\ xyxy box0 = [row] /\ c = conf box0
    /\ resize (interp wd) (crop_of im row ratio) osz = Val crop.
Proof.
  unfold detect_plate_yolo. intros H.
  destruct (path_exists wd path) eqn:Ep; simpl in H; [|discriminate].
  destruct (YOLODetector_init wd path 0) as [d|r] eqn:Ed; simpl in H;
    [|destruct r; discriminate].
  destruct (detect_plate d im) as [boxes|r] eqn:Eb; simpl in H;
    [|destruct r; discriminate].
  destruct boxes as [|box0 rest]; simpl in H; [discriminate|].
  assert (Hb : detected_boxes wd path im = Some (box0 :: rest)).
  { unfold detected_boxes. rewrite Ep, Ed, Eb. reflexivity. }
  pose proof (detected_boxes_init _ _ _ _ Hb) as Hinit.
  apply Forall_inv in Hinit as [row [k [q ->]]]. simpl in H.
  exists (Box_init row k q), rest, row.
  unfold crop_of.
  destruct (expanded_box row ratio (rows im) (cols im))
    as [[[x1n y1n] x2n] y2n].
  destruct (resize _ _ osz) as [out|e]; simpl in H; [|discriminate].
  injection H as -> <-. repeat split; assumption.
Qed.

(** C8. A crop returned by [detect_plate_yolo] has exactly the requested
    output size: [output_size[0]] columns and [output_size[1]] rows. *)
Theorem detect_plate_yolo_output_size (wd : world) (im : image)
    (model_path : string) (expand_ratio : Q) (output_size : Z * Z)
    (crop : image) (c : list Q) :
  detect_plate_yolo wd im model_path expand_ratio output_size
    = Ok (Some (crop, c)) ->
  (Z.of_nat (cols crop), Z.of_nat (rows crop)) = output_size.
Proof.
  intros H.
  apply detect_plate_yolo_some in H as (box0 & rest & row & _ & _ & _ & Hr).
  now apply resize_shape in Hr.
Qed.

Lemma detect_plate_yolo_output_size_witness :
  detect_plate_yolo Sample.one_plate Sample.black "src/models/best.pt"
    Settings.YOLO_EXPAND_RATIO Settings.YOLO_OUTPUT_SIZE
    = Ok (Some (Sample.resized, [87 # 100]))
  /\ (Z.of_nat (cols Sample.resized), Z.of_nat (rows Sample.resized))
     = (512, 256)%Z.
Proof.
  assert (H : detect_plate_yolo Sample.one_plate Sample.black
                "src/models/best.pt"
                Settings.YOLO_EXPAND_RATIO Settings.YOLO_OUTPUT_SIZE
              = Ok (Some (Sample.resized, [87 # 100]))) by reflexivity.
  split; [exact H|].
  exact (detect_plate_yolo_output_size _ _ _ _ _ _ _ H).
Defined.

(** A box outside the image leaves an empty crop, which [cv2.resize]
    rejects: the detection ends in [None]. *)
Lemma plate_outside_no_crop :
  detect_plate_yolo Sample.plate_outside Sample.black "src/models/best.pt"
    Settings.YOLO_EXPAND_RATIO Settings.YOLO_OUTPUT_SIZE = Ok None.
Proof. reflexivity. Qed.

(** C9. [detect_plate_yolo] always returns: an exception raised while the
    detector is constructed, or during inference, ends in [None], the value
    an empty detection gives. *)
Theorem detect_plate_yolo_never_raises (wd : world) (im : image)
    (model_path : string) (expand_ratio : Q) (output_size : Z * Z) :
  let r := detect_plate_yolo wd im model_path expand_ratio output_size in
  (exists v, r = Ok v)
  /\ (forall e, YOLO wd model_path = Err e -> r = Ok None)
  /\ (forall m e, YOLO wd model_path = Val m -> m im [0%Z] = Err e ->
                  r = Ok None)
  /\ (detected_boxes wd model_path im = Some [] -> r = Ok None).
Proof.
  cbv zeta. unfold detect_plate_yolo, detected_boxes, YOLODetector_init,
    detect_plate.
  destruct (path_exists wd model_path); simpl.
  2: { repeat split; eauto; discriminate. }
  destruct (YOLO wd model_path) as [m|e]; simpl.
  2: { repeat split; eauto; discriminate. }
  destruct (m im [0%Z]) as [results|e] eqn:Em; simpl.
  2: { repeat split; eauto. }
  set (boxes := flat_map _ results). clearbody boxes.
  assert (Hv : exists v,
    try_except
      (match boxes with
       | [] => ret None
       | box0 :: _ =>
           row <- getitem0 (xyxy box0) ;;
           (let '(h, w) := shape im in
            let conf := conf box0 in
            let '(x1_new, y1_new, x2_new, y2_new) :=
              expanded_box row expand_ratio h w in
            let cropped :=
              crop_plate im
                (inject_Z x1_new, inject_Z y1_new,
                 inject_Z x2_new, inject_Z y2_new) in
            cropped_resized <- call (resize (interp wd) cropped output_size) ;;
            ret (Some (cropped_resized, conf)))
       end) (fun _ => ret None) = Ok v).
  { destruct boxes as [|box0 rest]; simpl; [eauto|].
    destruct (xyxy box0) as [|row rows']; simpl; [eauto|].
    destruct (expanded_box row expand_ratio (rows im) (cols im))
      as [[[x1n y1n] x2n] y2n].
    destruct (resize _ _ output_size); simpl; eauto. }
  repeat split; try assumption; try discriminate.
  - intros m' e' [= <-] Hm. congruence.
  - intros [= ->]. reflexivity.
Qed.

Lemma detect_plate_yolo_never_raises_witness :
  detect_plate_yolo Sample.broken_weights Sample.black "src/models/best.pt"
    Settings.YOLO_EXPAND_RATIO Settings.YOLO_OUTPUT_SIZE = Ok None
  /\ detect_plate_yolo Sample.broken_inference Sample.black "src/models/best.pt"
       Settings.YOLO_EXPAND_RATIO Settings.YOLO_OUTPUT_SIZE = Ok None
  /\ detect_plate_yolo Sample.no_plate Sample.black "src/models/best.pt"
       Settings.YOLO_EXPAND_RATIO Settings.YOLO_OUTPUT_SIZE = Ok None.
Proof.
  split; [|split].
  - apply (proj1 (proj2 (detect_plate_yolo_never_raises Sample.broken_weights
             Sample.black "src/models/best.pt" Settings.YOLO_EXPAND_RATIO
             Settings.YOLO_OUTPUT_SIZE)) (LibraryError "invalid weights file")).
    reflexivity.
  - apply (proj1 (proj2 (proj2 (detect_plate_yolo_never_raises
             Sample.broken_inference Sample.black "src/models/best.pt"
             Settings.YOLO_EXPAND_RATIO Settings.YOLO_OUTPUT_SIZE)))
             (fun _ _ => Err (LibraryError "inference failed"))
             (LibraryError "inference failed")); reflexivity.
  - apply (proj2 (proj2 (proj2 (detect_plate_yolo_never_raises
             Sample.no_plate Sample.black "src/models/best.pt"
             Settings.YOLO_EXPAND_RATIO Settings.YOLO_OUTPUT_SIZE)))).
    reflexivity.
Defined.

(** ** ocr_reader.py: [extract_text] *)

Section ExtractText.

Variable self : OcrReader.OCRReader.

Let run := OcrReader.run (OcrReader.ocr self).

Lemma extract_text_total (img : option image) :
  exists v, OcrReader.extract_text self img = Ok v.
Proof.
  unfold OcrReader.extract_text.
  destruct img as [im|]; [|eauto].
  destruct (size im =? 0)%nat; [eauto|].
  destruct (OcrReader.run _ im); eauto.
Qed.

Lemma extract_text_some (img : option image) (text : ocr_text) (q : Q) :
  OcrReader.extract_text self img = Ok (Some (text, q)) ->
  exists im,
    img = Some im /\ size im <> 0%nat /\ run im = Val text
    /\ truthy text = true /\ q = 100.
Proof.
  unfold OcrReader.extract_text, run.
  destruct img as [im|]; [|discriminate].
  destruct (size im =? 0)%nat eqn:Es; [discriminate|].
  apply Nat.eqb_neq in Es.
  destruct (OcrReader.run _ im) as [t|e] eqn:Er; [|discriminate].
  destruct (truthy t) eqn:Et; [|discriminate].
  simpl. intros [= <- <-]. exists im. repeat split; auto.
Qed.

Lemma extract_text_none (img : option image) :
  OcrReader.extract_text self img = Ok None <->
  img = None
  \/ (exists im, img = Some im /\ size im = 0%nat)
  \/ (exists im e, img = Some im /\ run im = Err e)
  \/ (exists im t, img = Some im /\ run im = Val t /\ truthy t = false).
Proof.
  unfold OcrReader.extract_text, run. split.
  - destruct img as [im|]; [|now left].
    destruct (size im =? 0)%nat eqn:Es.
    { apply Nat.eqb_eq in Es. intros _. right; left. eauto. }
    destruct (OcrReader.run _ im) as [t|e] eqn:Er.
    2: { intros _. right; right; left. eauto. }
    destruct (truthy t) eqn:Et; [discriminate|]. intros _.
    right; right; right. eauto.
  - intros [->|[(im & -> & Hs)|[(im & e & -> & He)|(im & t & -> & Ht & Hf)]]].
    + reflexivity.
    + apply Nat.eqb_eq in Hs. rewrite Hs. reflexivity.
    + destruct (size im =? 0)%nat; [reflexivity|]. rewrite He. reflexivity.
    + destruct (size im =? 0)%nat; [reflexivity|]. rewrite Ht, Hf. reflexivity.
Qed.

End ExtractText.

(** C6. [extract_text] never raises; it returns [None] exactly when the
    image is [None] or of size 0, the model raises, or the recognized text
    is empty; in every other case it returns the text with the sentinel
    confidence 100 (the 0 computed for an empty text is never returned). *)
Theorem extract_text_contract (self : OcrReader.OCRReader) (img : option image) :
  (exists v, OcrReader.extract_text self img = Ok v)
  /\ (OcrReader.extract_text self img = Ok None <->
      img = None
      \/ (exists im, img = Some im /\ size im = 0%nat)
      \/ (exists im e, img = Some im
                       /\ OcrReader.run (OcrReader.ocr self) im = Err e)
      \/ (exists im t, img = Some im
                       /\ OcrReader.run (OcrReader.ocr self) im = Val t
                       /\ truthy t = false))
  /\ (forall im t,
        img = Some im -> size im <> 0%nat ->
        OcrReader.run (OcrReader.ocr self) im = Val t -> truthy t = true ->
        OcrReader.extract_text self img = Ok (Some (t, 100))).
Proof.
  split; [apply extract_text_total|].
  split; [apply extract_text_none|].
  intros im t -> Hs Hr Ht. unfold OcrReader.extract_text.
  apply Nat.eqb_neq in Hs. rewrite Hs, Hr, Ht. reflexivity.
Qed.

Lemma extract_text_contract_witness :
  OcrReader.extract_text (Sample.reader_of (Val (TStr "ABC123")))
    (Some Sample.resized) = Ok (Some (TStr "ABC123", 100))
  /\ OcrReader.extract_text (Sample.reader_of (Val (TStr "")))
       (Some Sample.resized) = Ok None.
Proof.
  split.
  - apply (proj2 (proj2 (extract_text_contract
             (Sample.reader_of (Val (TStr "ABC123"))) (Some Sample.resized)))
             Sample.resized (TStr "ABC123"));
      [reflexivity | discriminate | reflexivity | reflexivity].
  - apply (proj1 (proj2 (extract_text_contract
             (Sample.reader_of (Val (TStr ""))) (Some Sample.resized)))).
    right; right; right. exists Sample.resized, (TStr "").
    repeat split; reflexivity.
Defined.

(** ** workflow.py: [process] *)

Section Process.

Import Settings.

Variable wd : world.
Variable self : PlateRecognizer.

Let detection (im : image) :=
  detect_plate_yolo wd im (yolo_model_path self)
    YOLO_EXPAND_RATIO YOLO_OUTPUT_SIZE.

(** Without a crop the unpacking of [None] fails; the branch that
    returns "No text detected." is not reached. *)
Lemma process_without_crop (im : image) (DEBUG : bool) :
  size im <> 0%nat -> detection im = Ok None ->
  process wd self (Some im) DEBUG
    = Raise (Exc (TypeError "cannot unpack non-iterable NoneType object")).
Proof.
  unfold detection, process. intros Hs Hd.
  apply Nat.eqb_neq in Hs. rewrite Hs, Hd. reflexivity.
Qed.

Lemma process_some (image : option image) (DEBUG : bool)
    (text : ocr_text) (cf : conf_value) :
  process wd self image DEBUG = Ok (Some (text, cf)) ->
  exists im crop c,
    image = Some im /\ size im <> 0%nat
    /\ detection im = Ok (Some (crop, c))
    /\ OcrReader.extract_text (ocr self) (Some crop) = Ok (Some (text, 100))
    /\ cf = CList c /\ DEBUG = false.
Proof.
  unfold detection, process. intros H.
  destruct image as [im|]; [|discriminate].
  destruct (size im =? 0)%nat eqn:Es; [discriminate|].
  apply Nat.eqb_neq in Es.
  destruct (detect_plate_yolo _ _ _ _ _) as [[[crop c]|]|r] eqn:Ed;
    cbn [bind unpack2] in H; try discriminate.
  destruct (OcrReader.extract_text (ocr self) (Some crop))
    as [[[t q]|]|r] eqn:Eo.
  - destruct DEBUG.
    + destruct (show_image _ _ _ _) as [[]|e]; discriminate.
    + cbn in H. injection H as -> <-.
      destruct (extract_text_some _ _ _ _ Eo) as (_ & _ & _ & _ & _ & ->).
      exists im, crop, c. repeat split; auto.
  - destruct DEBUG; [|discriminate].
    destruct (show_image _ _ _ _) as [[]|e]; discriminate.
  - destruct DEBUG; [|discriminate].
    destruct (show_image _ _ _ _) as [[]|e]; discriminate.
Qed.

End Process.

(** C3. When the detector yields a box, a crop is cut from it, and the OCR
    step yields no result on that crop, [process] returns [None]. *)
Theorem process_ocr_no_result (wd : world) (self : PlateRecognizer)
    (im crop : image) (c : list Q) (DEBUG : bool) :
  size im <> 0%nat ->
  detect_plate_yolo wd im (yolo_model_path self)
    Settings.YOLO_EXPAND_RATIO Settings.YOLO_OUTPUT_SIZE
    = Ok (Some (crop, c)) ->
  (DEBUG = true ->
   show_image wd crop "Detected Plate" Settings.SHOW_IMAGE_DELAY_MS = Val tt) ->
  OcrReader.extract_text (ocr self) (Some crop) = Ok None ->
  process wd self (Some im) DEBUG = Ok None.
Proof.
  intros Hs Hd Hshow Ho. unfold process.
  apply Nat.eqb_neq in Hs. rewrite Hs, Hd. cbn [bind unpack2].
  destruct DEBUG.
  - rewrite (Hshow eq_refl). cbn [bind call]. rewrite Ho. reflexivity.
  - cbn [bind ret]. rewrite Ho. reflexivity.
Qed.

Lemma process_ocr_no_result_witness :
  process Sample.one_plate (recognizer (Sample.api_of (Val (TStr ""))))
    (Some Sample.black) false = Ok None
  /\ process Sample.one_plate
       (recognizer (Sample.api_of (Err (LibraryError "onnxruntime failure"))))
       (Some Sample.black) true = Ok None.
Proof.
  split.
  - apply (process_ocr_no_result Sample.one_plate
             (recognizer (Sample.api_of (Val (TStr ""))))
             Sample.black Sample.resized [87 # 100] false);
      [discriminate | reflexivity | discriminate | reflexivity].
  - apply (process_ocr_no_result Sample.one_plate
             (recognizer (Sample.api_of (Err (LibraryError "onnxruntime failure"))))
             Sample.black Sample.resized [87 # 100] true);
      [discriminate | reflexivity | reflexivity | reflexivity].
Defined.

(** C1 (what the code does). With the weights present and no box of the
    target class, and likewise with the weights file absent,
    [detect_plate_yolo] returns [None] and [process] fails with a
    [TypeError] while unpacking it; it does not return
    ("No text detected.", 0.0). *)
Theorem process_no_detection_raises :
  detected_boxes Sample.no_plate "src/models/best.pt" Sample.black = Some []
  /\ detect_plate_yolo Sample.no_plate Sample.black "src/models/best.pt"
       Settings.YOLO_EXPAND_RATIO Settings.YOLO_OUTPUT_SIZE = Ok None
  /\ process Sample.no_plate (recognizer (Sample.api_of (Val (TStr "ABC123"))))
       (Some Sample.black) false
     = Raise (Exc (TypeError "cannot unpack non-iterable NoneType object"))
  /\ process Sample.no_plate (recognizer (Sample.api_of (Val (TStr "ABC123"))))
       (Some Sample.black) false
     <> Ok (Some (TStr "No text detected.", CFloat 0))
  /\ process Sample.no_weights (recognizer (Sample.api_of (Val (TStr "ABC123"))))
       (Some Sample.black) false
     = Raise (Exc (TypeError "cannot unpack non-iterable NoneType object")).
Proof.
  split; [reflexivity|]. split; [reflexivity|].
  split; [apply process_without_crop; [discriminate|reflexivity]|].
  split; [|apply process_without_crop; [discriminate|reflexivity]].
  intros H. rewrite process_without_crop in H by easy. discriminate.
Qed.

(** ** app.py: [recognize] *)

Section Recognize.

Variable wd : world.
Variable self : PlateAPI.

Ltac other_response H Hf :=
  solve [ cbn in H;
          first [ discriminate H
                | injection H as <- <-; cbn in Hf; discriminate Hf ] ].

(** The only way to a response with [plateFound] true. *)
Lemma recognize_found (request : Request) (body : list (string * json))
    (status : Z) :
  recognize wd self request = Ok (body, status) ->
  field "plateFound" body = Some (JBool true) ->
  exists f im text q l,
    files_get request "image" = Some f /\ filename f <> ""
    /\ imdecode wd (stream f) = Val (Some im)
    /\ process wd (recognizer self) (Some im) false
       = Ok (Some (text, CList (q :: l)))
    /\ _normalize_text text <> ""
    /\ body = [("success", JBool true); ("plateFound", JBool true);
               ("licenseNumber", JStr (_normalize_text text));
               ("confidence", JNum q)]
    /\ status = 200%Z.
Proof.
  unfold recognize. intros H Hf.
  destruct (files_get request "image") as [f|]; [|other_response H Hf].
  destruct (filename f =? "") eqn:Efn; [other_response H Hf|].
  apply String.eqb_neq in Efn.
  destruct (imdecode wd (stream f)) as [[im|]|e] eqn:Ei;
    cbn [bind call] in H; try other_response H Hf.
  destruct (process wd (recognizer self) (Some im) false)
    as [[[text cf]|]|r] eqn:Ep; cbn [bind unpack2] in H;
    try other_response H Hf.
  2: { destruct r; other_response H Hf. }
  destruct cf as [x|[|q l]]; cbn [bind getitem0] in H;
    try other_response H Hf.
  destruct (negb (truthy text)); [other_response H Hf|].
  destruct (match text with
            | TStr s => str_in s ["No text detected."; "________"]
            | TSeq _ => false
            end); [other_response H Hf|].
  destruct (match text with
            | TSeq parts => join "" parts =? "________"
            | TStr _ => false
            end); [other_response H Hf|].
  destruct (_normalize_text text =? "") eqn:En; [other_response H Hf|].
  apply String.eqb_neq in En.
  cbn [try_except ret jsonify] in H. injection H as <- <-.
  exists f, im, text, q, l. repeat split; auto.
Qed.

(** The branches of the handler that answer "no plate found". *)
Lemma recognize_not_found (request : Request) (f : FileStorage) (im : image)
    (text : ocr_text) (q : Q) (l : list Q) :
  files_get request "image" = Some f -> filename f <> "" ->
  imdecode wd (stream f) = Val (Some im) ->
  process wd (recognizer self) (Some im) false
    = Ok (Some (text, CList (q :: l))) ->
  (_normalize_text text = ""
   \/ text = TStr "No text detected." \/ text = TStr "________"
   \/ exists parts, text = TSeq parts /\ join "" parts = "________") ->
  recognize wd self request = Ok not_found.
Proof.
  intros Hfile Hname Hdec Hproc Htext. unfold recognize.
  apply String.eqb_neq in Hname.
  rewrite Hfile, Hname, Hdec. cbn [bind call]. rewrite Hproc.
  cbn [bind unpack2 getitem0].
  destruct Htext as [Hn|[->|[->|(parts & -> & Hj)]]].
  - destruct (negb (truthy text)); [reflexivity|].
    destruct (match text with
              | TStr s => str_in s ["No text detected."; "________"]
              | TSeq _ => false
              end); [reflexivity|].
    destruct (match text with
              | TSeq parts => join "" parts =? "________"
              | TStr _ => false
              end); [reflexivity|].
    rewrite Hn. reflexivity.
  - reflexivity.
  - reflexivity.
  - destruct (negb (truthy (TSeq parts))); [reflexivity|].
    rewrite Hj. reflexivity.
Qed.

(** No crop, or no OCR result: the unpacking fails and the handler
    answers with the generic server error. *)
Lemma recognize_without_result (request : Request) (f : FileStorage)
    (im : image) :
  files_get request "image" = Some f -> filename f <> "" ->
  imdecode wd (stream f) = Val (Some im) ->
  (process wd (recognizer self) (Some im) false = Ok None
   \/ exists e, process wd (recognizer self) (Some im) false = Raise (Exc e)) ->
  recognize wd self request
    = Ok ([("success", JBool false); ("error", JStr "internal_error")], 500%Z).
Proof.
  intros Hfile Hname Hdec Hproc. unfold recognize.
  apply String.eqb_neq in Hname.
  rewrite Hfile, Hname, Hdec. cbn [bind call].
  destruct Hproc as [-> | [e ->]]; reflexivity.
Qed.

End Recognize.

(** C2 (what the code does). A decodable upload on which the detector finds
    no plate, or on which the OCR model reads the empty text, is answered
    with status 500 and the error "internal_error", not with status 200
    and [plateFound] false. *)
Theorem recognize_no_plate_internal_error :
  recognize Sample.no_plate (Sample.api_of (Val (TStr "ABC123"))) Sample.upload
    = Ok ([("success", JBool false); ("error", JStr "internal_error")], 500%Z)
  /\ recognize Sample.one_plate (Sample.api_of (Val (TStr ""))) Sample.upload
     = Ok ([("success", JBool false); ("error", JStr "internal_error")], 500%Z).
Proof.
  split.
  - apply (recognize_without_result Sample.no_plate _ Sample.upload
             {| filename := "car.jpg"; stream := [255; 216; 255]%Z |}
             Sample.black); try reflexivity; [discriminate|].
    right. eexists. apply process_without_crop; [discriminate|reflexivity].
  - apply (recognize_without_result Sample.one_plate _ Sample.upload
             {| filename := "car.jpg"; stream := [255; 216; 255]%Z |}
             Sample.black); try reflexivity; [discriminate|].
    left. reflexivity.
Qed.

(** What [process] returns comes from the first detected box. *)
Lemma process_returns_box_conf (wd : world) (self : PlateRecognizer)
    (image : option image) (DEBUG : bool) (text : ocr_text) (cf : conf_value) :
  process wd self image DEBUG = Ok (Some (text, cf)) ->
  exists im box0 rest q crop,
    image = Some im
    /\ detected_boxes wd (yolo_model_path self) im = Some (box0 :: rest)
    /\ conf box0 = [q] /\ cf = CList (conf box0)
    /\ OcrReader.extract_text (ocr self) (Some crop) = Ok (Some (text, 100)).
Proof.
  intros H.
  apply process_some in H as (im & crop & c & -> & _ & Hd & Ho & -> & _).
  apply detect_plate_yolo_some in Hd as (box0 & rest & row & Hb & _ & -> & _).
  pose proof (detected_boxes_init _ _ _ _ Hb) as Hinit.
  apply Forall_inv in Hinit as (row' & k & q & ->).
  exists im, (Box_init row' k q), rest, q, crop. repeat split; auto.
Qed.

(** C4. With a crop and a non-empty OCR text, [process] returns the text
    with the confidence list of the detection; whenever it returns a pair,
    the confidence is the [conf] of the first box the detector reported,
    whatever confidence the OCR step attached to the text (always 100);
    and a response with [plateFound] true carries that detector confidence
    in its [confidence] field. *)
Theorem confidence_is_detector_confidence (wd : world) :
  (forall self im crop c text q,
      size im <> 0%nat ->
      detect_plate_yolo wd im (yolo_model_path self)
        Settings.YOLO_EXPAND_RATIO Settings.YOLO_OUTPUT_SIZE
        = Ok (Some (crop, c)) ->
      OcrReader.extract_text (ocr self) (Some crop) = Ok (Some (text, q)) ->
      process wd self (Some im) false = Ok (Some (text, CList c)))
  /\ (forall self image DEBUG text cf,
      process wd self image DEBUG = Ok (Some (text, cf)) ->
      exists im box0 rest q crop,
        image = Some im
        /\ detected_boxes wd (yolo_model_path self) im = Some (box0 :: rest)
        /\ conf box0 = [q] /\ cf = CList (conf box0)
        /\ OcrReader.extract_text (ocr self) (Some crop)
           = Ok (Some (text, 100)))
  /\ (forall api request body status,
        recognize wd api request = Ok (body, status) ->
        field "plateFound" body = Some (JBool true) ->
        exists f im box0 rest q,
          files_get request "image" = Some f
          /\ imdecode wd (stream f) = Val (Some im)
          /\ detected_boxes wd (yolo_model_path (recognizer api)) im
             = Some (box0 :: rest)
          /\ conf box0 = [q]
          /\ field "confidence" body = Some (JNum q) /\ status = 200%Z).
Proof.
  split; [|split].
  - intros self im crop c text q Hs Hd Ho. unfold process.
    apply Nat.eqb_neq in Hs. rewrite Hs, Hd. cbn [bind unpack2 ret].
    rewrite Ho. reflexivity.
  - intros self image DEBUG text cf. apply process_returns_box_conf.
  - intros api request body status H Hf.
    apply recognize_found in H
      as (f & im & text & q & l & Hfile & _ & Hdec & Hp & _ & -> & ->);
      [|exact Hf].
    apply process_returns_box_conf in Hp
      as (im' & box0 & rest & q' & crop & [= <-] & Hb & Hc & Hcf & _).
    rewrite Hc in Hcf. injection Hcf as -> ->.
    exists f, im, box0, rest, q'. repeat split; auto.
Qed.

Lemma confidence_is_detector_confidence_witness :
  process Sample.one_plate (recognizer (Sample.api_of (Val (TStr "ABC123"))))
    (Some Sample.black) false
    = Ok (Some (TStr "ABC123", CList [87 # 100]))
  /\ recognize Sample.one_plate (Sample.api_of (Val (TStr "ABC123")))
       Sample.upload
     = Ok ([("success", JBool true); ("plateFound", JBool true);
            ("licenseNumber", JStr "ABC123");
            ("confidence", JNum (87 # 100))], 200%Z)
  /\ (exists im box0 rest q crop,
        Some Sample.black = Some im
        /\ detected_boxes Sample.one_plate "src/models/best.pt" im
           = Some (box0 :: rest)
        /\ conf box0 = [q] /\ CList [87 # 100] = CList (conf box0)
        /\ OcrReader.extract_text (Sample.reader_of (Val (TStr "ABC123")))
             (Some crop) = Ok (Some (TStr "ABC123", 100))).
Proof.
  assert (H : process Sample.one_plate
                (recognizer (Sample.api_of (Val (TStr "ABC123"))))
                (Some Sample.black) false
              = Ok (Some (TStr "ABC123", CList [87 # 100]))) by reflexivity.
  split; [exact H|]. split; [reflexivity|].
  exact (proj1 (proj2 (confidence_is_detector_confidence Sample.one_plate))
           _ _ _ _ _ H).
Defined.

(** X22. Whatever text [process] hands to the handler, a text whose
    normalized form is empty, the strings "No text detected." and
    "________", and a list joining to "________" are all answered with
    status 200, [plateFound] false and neither [licenseNumber] nor
    [confidence]; hence a response with [plateFound] true carries a
    non-empty [licenseNumber]. *)
Theorem recognize_empty_text_not_found (wd : world) (self : PlateAPI)
    (request : Request) :
  (forall f im text cf,
      files_get request "image" = Some f -> filename f <> "" ->
      imdecode wd (stream f) = Val (Some im) ->
      process wd (recognizer self) (Some im) false = Ok (Some (text, cf)) ->
      (_normalize_text text = ""
       \/ text = TStr "No text detected." \/ text = TStr "________"
       \/ exists parts, text = TSeq parts /\ join "" parts = "________") ->
      exists body,
        recognize wd self request = Ok (body, 200%Z)
        /\ body = [("success", JBool true); ("plateFound", JBool false)]
        /\ field "licenseNumber" body = None
        /\ field "confidence" body = None)
  /\ (forall body status,
        recognize wd self request = Ok (body, status) ->
        field "plateFound" body = Some (JBool true) ->
        exists s, field "licenseNumber" body = Some (JStr s) /\ s <> "").
Proof.
  split.
  - intros f im text cf Hfile Hname Hdec Hp Ht.
    exists (fst not_found). repeat split.
    destruct (process_returns_box_conf _ _ _ _ _ _ Hp)
      as (im' & box0 & rest & q & crop & _ & _ & Hc & -> & _).
    rewrite Hc in Hp.
    eapply recognize_not_found; eassumption.
  - intros body status H Hf.
    apply recognize_found in H
      as (f & im & text & q & l & _ & _ & _ & _ & Hn & -> & _); [|exact Hf].
    exists (_normalize_text text). split; [reflexivity|assumption].
Qed.

Lemma recognize_empty_text_not_found_witness :
  recognize Sample.one_plate (Sample.api_of (Val (TStr "__ __"))) Sample.upload
    = Ok ([("success", JBool true); ("plateFound", JBool false)], 200%Z)
  /\ (exists s,
        field "licenseNumber"
          [("success", JBool true); ("plateFound", JBool true);
           ("licenseNumber", JStr "AB0121"); ("confidence", JNum (87 # 100))]
        = Some (JStr s) /\ s <> "").
Proof.
  split.
  - destruct (proj1 (recognize_empty_text_not_found Sample.one_plate
                       (Sample.api_of (Val (TStr "__ __"))) Sample.upload)
                {| filename := "car.jpg"; stream := [255; 216; 255]%Z |}
                Sample.black (TStr "__ __") (CList [87 # 100]))
      as (body & Hr & -> & _).
    + reflexivity.
    + discriminate.
    + reflexivity.
    + reflexivity.
    + left. reflexivity.
    + exact Hr.
  - apply (proj2 (recognize_empty_text_not_found Sample.one_plate
                    (Sample.api_of (Val (TStr "AB0 12I"))) Sample.upload)
             _ 200%Z).
    + reflexivity.
    + reflexivity.
Defined.

(** C10 (what the code does). An empty OCR text, the empty string or the
    empty list, has an empty normalized form, but it never reaches the
    handler's [if not text] branch: [extract_text] returns [None] for it,
    [process] returns [None], the unpacking fails and the handler answers
    500 with "internal_error", not 200 with [plateFound] false. *)
Theorem recognize_empty_text_internal_error :
  _normalize_text (TStr "") = ""
  /\ process Sample.one_plate (recognizer (Sample.api_of (Val (TStr ""))))
       (Some Sample.black) false = Ok None
  /\ recognize Sample.one_plate (Sample.api_of (Val (TStr ""))) Sample.upload
     = Ok internal_error
  /\ _normalize_text (TSeq []) = ""
  /\ process Sample.one_plate (recognizer (Sample.api_of (Val (TSeq []))))
       (Some Sample.black) false = Ok None
  /\ recognize Sample.one_plate (Sample.api_of (Val (TSeq []))) Sample.upload
     = Ok internal_error.
Proof.
  assert (H1 : process Sample.one_plate
                 (recognizer (Sample.api_of (Val (TStr ""))))
                 (Some Sample.black) false = Ok None) by reflexivity.
  assert (H2 : process Sample.one_plate
                 (recognizer (Sample.api_of (Val (TSeq []))))
                 (Some Sample.black) false = Ok None) by reflexivity.
  split; [reflexivity|]. split; [exact H1|]. split.
  { apply (recognize_without_result Sample.one_plate _ Sample.upload
             {| filename := "car.jpg"; stream := [255; 216; 255]%Z |}
             Sample.black); try reflexivity; [discriminate|now left]. }
  split; [reflexivity|]. split; [exact H2|].
  apply (recognize_without_result Sample.one_plate _ Sample.upload
           {| filename := "car.jpg"; stream := [255; 216; 255]%Z |}
           Sample.black); try reflexivity; [discriminate|now left].
Qed.

(** * Further properties *)

(** ** Strings *)

Lemma append_nil_r (s : string) : s ++ "" = s.
Proof. induction s as [|c s IH]; simpl; [reflexivity|now rewrite IH]. Qed.

Lemma append_assoc (s t u : string) : (s ++ t) ++ u = s ++ (t ++ u).
Proof. induction s as [|c s IH]; simpl; [reflexivity|now rewrite IH]. Qed.

Lemma length_append (s t : string) :
  String.length (s ++ t) = (String.length s + String.length t)%nat.
Proof. induction s as [|c s IH]; simpl; [reflexivity|now rewrite IH]. Qed.

Lemma replace_app (a : ascii) (new s t : string) :
  replace (String a "") new (s ++ t)
  = replace (String a "") new s ++ replace (String a "") new t.
Proof.
  induction s as [|c s IH]; [reflexivity|].
  change (String c s ++ t) with (String c (s ++ t)).
  rewrite !replace_cons, IH.
  destruct (Ascii.eqb a c); [now rewrite append_assoc|reflexivity].
Qed.

Lemma join_cons (p : string) (ps : list string) :
  join "" (p :: ps) = p ++ join "" ps.
Proof.
  unfold join. destruct ps as [|p' ps]; simpl; [now rewrite append_nil_r|].
  reflexivity.
Qed.

Lemma length_replace_le (a : ascii) (new s : string) :
  (String.length new <= 1)%nat ->
  (String.length (replace (String a "") new s) <= String.length s)%nat.
Proof.
  intros Hn. induction s as [|c s IH]; [simpl; lia|].
  rewrite replace_cons. destruct (Ascii.eqb a c).
  - rewrite length_append. simpl. lia.
  - simpl. lia.
Qed.

Lemma occurs_replace_keep (a b : ascii) (new s : string) :
  Ascii.eqb b a = false -> occurs b new = false ->
  occurs b (replace (String a "") new s) = occurs b s.
Proof.
  intros Hab Hnew. induction s as [|c s IH]; [reflexivity|].
  rewrite replace_cons. destruct (Ascii.eqb a c) eqn:E.
  - apply Ascii.eqb_eq in E. subst c.
    rewrite occurs_app, Hnew, IH. simpl. now rewrite Hab.
  - simpl. now rewrite IH.
Qed.

Lemma normalize_str_app (s t : string) :
  _normalize_text (TStr (s ++ t))
  = _normalize_text (TStr s) ++ _normalize_text (TStr t).
Proof. unfold _normalize_text. now rewrite !replace_app. Qed.

(** X1. Normalization works character by character: it distributes over
    concatenation, and a list of parts normalizes to the concatenation of
    the normalized parts. *)
Theorem normalize_text_concat :
  (forall s t : string,
      _normalize_text (TStr (s ++ t))
      = _normalize_text (TStr s) ++ _normalize_text (TStr t))
  /\ (forall parts : list string,
        _normalize_text (TSeq parts)
        = join "" (map (fun p => _normalize_text (TStr p)) parts)).
Proof.
  split; [exact normalize_str_app|].
  intros parts.
  change (_normalize_text (TSeq parts))
    with (_normalize_text (TStr (join "" parts))).
  induction parts as [|p ps IH]; [reflexivity|].
  rewrite join_cons, normalize_str_app, IH.
  change (map _ (p :: ps))
    with (_normalize_text (TStr p)
            :: map (fun p => _normalize_text (TStr p)) ps).
  now rewrite join_cons.
Qed.

(** X2. The strings normalization leaves unchanged are exactly those
    without underscore, space, [O], [o], [i] and [I]. *)
Theorem normalize_text_fixed_points (s : string) :
  _normalize_text (TStr s) = s
  <-> (forall a, In a rewritten -> occurs a s = false).
Proof.
  split.
  - intros H a Ha. rewrite <- H. now apply normalized_clean.
  - intros H. unfold _normalize_text.
    rewrite (replace_absent "_") by (apply H; simpl; tauto).
    rewrite (replace_absent " ") by (apply H; simpl; tauto).
    rewrite (replace_absent "O") by (apply H; simpl; tauto).
    rewrite (replace_absent "o") by (apply H; simpl; tauto).
    rewrite (replace_absent "i") by (apply H; simpl; tauto).
    rewrite (replace_absent "I") by (apply H; simpl; tauto).
    reflexivity.
Qed.

(** X3. Normalization never lengthens a text, and apart from the six
    rewritten characters and the digits 0 and 1 it neither removes nor
    introduces any character. *)
Theorem normalize_text_conservative (s : string) :
  (String.length (_normalize_text (TStr s)) <= String.length s)%nat
  /\ (forall a : ascii,
        ~ In a rewritten -> a <> "0"%char -> a <> "1"%char ->
        occurs a (_normalize_text (TStr s)) = occurs a s).
Proof.
  unfold _normalize_text. split.
  - repeat (etransitivity; [apply length_replace_le; simpl; lia|]).
    reflexivity.
  - intros a Hr H0 H1.
    assert (Hne : forall b, In b rewritten -> Ascii.eqb a b = false).
    { intros b Hb. apply Ascii.eqb_neq. intros ->. contradiction. }
    assert (E0 : occurs a "0" = false).
    { simpl. apply Ascii.eqb_neq in H0. now rewrite H0. }
    assert (E1 : occurs a "1" = false).
    { simpl. apply Ascii.eqb_neq in H1. now rewrite H1. }
    rewrite !occurs_replace_keep;
      first [reflexivity | assumption | apply Hne; simpl; tauto].
Qed.

Lemma normalize_text_conservative_witness :
  occurs "A" (_normalize_text (TStr "A_O")) = occurs "A" "A_O".
Proof.
  apply (proj2 (normalize_text_conservative "A_O") "A"%char).
  - simpl. intros [H|[H|[H|[H|[H|[H|[]]]]]]]; discriminate H.
  - discriminate.
  - discriminate.
Defined.

(** ** yolo_detector.py: cropping *)

Lemma slice_range_within (n : nat) (a b : Z) :
  (fst (slice_range n a b) + snd (slice_range n a b) <= n)%nat.
Proof.
  unfold slice_range, slice_index; simpl.
  destruct (a <? 0)%Z eqn:Ea; destruct (b <? 0)%Z eqn:Eb;
    try apply Z.ltb_lt in Ea; try apply Z.ltb_lt in Eb;
    try apply Z.ltb_ge in Ea; try apply Z.ltb_ge in Eb; lia.
Qed.

Lemma slice_range_inside (n : nat) (a b : Z) :
  (0 <= a <= b)%Z -> (b <= Z.of_nat n)%Z ->
  slice_range n a b = (Z.to_nat a, Z.to_nat (b - a)).
Proof.
  intros Ha Hb. unfold slice_range, slice_index.
  destruct (a <? 0)%Z eqn:Ea; [apply Z.ltb_lt in Ea; lia|].
  destruct (b <? 0)%Z eqn:Eb; [apply Z.ltb_lt in Eb; lia|].
  rewrite !Z.min_l by lia. reflexivity.
Qed.

(** X4. Whatever the box, [crop_plate] returns a window of the image: the
    crop is no larger than the image and each of its pixels is the image
    pixel at a fixed offset.  Coordinates out of bounds are clipped; nothing
    is raised for them. *)
Theorem crop_plate_window (im : image) (box : Q * Q * Q * Q) :
  exists r0 c0 : nat,
    (r0 + rows (crop_plate im box) <= rows im)%nat
    /\ (c0 + cols (crop_plate im box) <= cols im)%nat
    /\ forall r c, px (crop_plate im box) r c = px im (r0 + r)%nat (c0 + c)%nat.
Proof.
  destruct box as [[[x1 y1] x2] y2]. unfold crop_plate, slice2.
  pose proof (slice_range_within (rows im) (int y1) (int y2)) as Hr.
  pose proof (slice_range_within (cols im) (int x1) (int x2)) as Hc.
  destruct (slice_range (rows im) (int y1) (int y2)) as [r0 nr].
  destruct (slice_range (cols im) (int x1) (int x2)) as [c0 nc].
  exists r0, c0. simpl in *. auto.
Qed.

(** X5. For integer corners inside the image, the crop has [y2 - y1] rows
    and [x2 - x1] columns, and its pixel [(r, c)] is the image pixel
    [(y1 + r, x1 + c)]. *)
Theorem crop_plate_inside (im : image) (x1 y1 x2 y2 : Z) :
  (0 <= x1 <= x2)%Z -> (x2 <= Z.of_nat (cols im))%Z ->
  (0 <= y1 <= y2)%Z -> (y2 <= Z.of_nat (rows im))%Z ->
  let crop :=
    crop_plate im (inject_Z x1, inject_Z y1, inject_Z x2, inject_Z y2) in
  rows crop = Z.to_nat (y2 - y1) /\ cols crop = Z.to_nat (x2 - x1)
  /\ forall r c, px crop r c = px im (Z.to_nat y1 + r)%nat (Z.to_nat x1 + c)%nat.
Proof.
  intros Hx Hx2 Hy Hy2. unfold crop_plate, slice2.
  rewrite !int_inject_Z.
  rewrite (slice_range_inside (rows im) y1 y2) by assumption.
  rewrite (slice_range_inside (cols im) x1 x2) by assumption.
  simpl. auto.
Qed.

Lemma crop_plate_inside_witness :
  let crop := crop_plate Fixtures.ramp (2, 2, 5, 6) in
  shape crop = (4, 3)%nat
  /\ px crop 0 0 = (2, 2, 0)%Z /\ px crop 3 2 = (5, 4, 0)%Z.
Proof.
  destruct (crop_plate_inside Fixtures.ramp 2 2 5 6) as (Hr & Hc & Hp);
    try (simpl; lia).
  cbv zeta. unfold shape.
  change (2 : Q) with (inject_Z 2). change (5 : Q) with (inject_Z 5).
  change (6 : Q) with (inject_Z 6).
  rewrite Hr, Hc, !Hp. repeat split.
Defined.

(** ** yolo_detector.py: [detect_plate] *)

Lemma length_zip3 {A B C} (a : list A) (b : list B) (c : list C) :
  List.length (zip3 a b c)
  = Nat.min (List.length a) (Nat.min (List.length b) (List.length c)).
Proof.
  revert b c. induction a as [|x a IH]; intros [|y b] [|z c]; simpl; auto.
Qed.

(** X6. [detect_plate] makes one box for every complete row (coordinates,
    class, confidence) of every result the model returns, whatever the
    class of the row; each box holds one row of coordinates, one class and
    one confidence.  An exception of the model is not caught here. *)
Theorem detect_plate_rows (d : YOLODetector) (im : image) :
  (forall results,
      model d im [plate_class_id d] = Val results ->
      exists boxes,
        detect_plate d im = Ok boxes
        /\ List.length boxes
           = list_sum
               (map (fun r =>
                       Nat.min (List.length (r_xyxy r))
                         (Nat.min (List.length (r_cls r))
                                  (List.length (r_conf r))))
                    results)
        /\ Forall (fun b => List.length (xyxy b) = 1%nat
                            /\ List.length (cls b) = 1%nat
                            /\ List.length (conf b) = 1%nat) boxes)
  /\ (forall e,
        model d im [plate_class_id d] = Err e ->
        detect_plate d im = Raise (Exc e)).
Proof.
  split.
  - intros results Hm. eexists. split; [|split].
    + unfold detect_plate. rewrite Hm. reflexivity.
    + rewrite length_flat_map. f_equal. apply map_ext.
      intros r. now rewrite length_map, length_zip3.
    + apply Forall_forall. intros b Hb.
      apply in_flat_map in Hb as [r [_ Hb]].
      apply in_map_iff in Hb as [[[row c] q] [<- _]].
      repeat split.
  - intros e Hm. unfold detect_plate. rewrite Hm. reflexivity.
Qed.

Lemma detect_plate_rows_witness :
  exists boxes,
    detect_plate {| model := Sample.model_of [(10, 20, 50, 40, 60 # 100);
                                              (60, 10, 90, 30, 95 # 100)];
                    plate_class_id := 0 |} Sample.black = Ok boxes
    /\ List.length boxes = 2%nat.
Proof.
  destruct (proj1 (detect_plate_rows
                     {| model := Sample.model_of [(10, 20, 50, 40, 60 # 100);
                                                  (60, 10, 90, 30, 95 # 100)];
                        plate_class_id := 0 |} Sample.black) _ eq_refl)
    as (boxes & Hb & Hl & _).
  exists boxes. split; [exact Hb|exact Hl].
Defined.

(** ** yolo_detector.py: which detection is used, and when a crop exists *)

Lemma detect_plate_yolo_unfold (wd : world) (im : image) (path : string)
    (ratio : Q) (osz : Z * Z) (b0 : Box) (rest : list Box)
    (row : Q * Q * Q * Q) (more : list (Q * Q * Q * Q)) :
  detected_boxes wd path im = Some (b0 :: rest) ->
  xyxy b0 = row :: more ->
  detect_plate_yolo wd im path ratio osz
  = match resize (interp wd) (crop_of im row ratio) osz with
    | Val crop => Ok (Some (crop, conf b0))
    | Err _ => Ok None
    end.
Proof.
  unfold detected_boxes, detect_plate_yolo. intros Hb Hrow.
  destruct (path_exists wd path); [|discriminate]. simpl.
  destruct (YOLODetector_init wd path 0) as [d|r]; [|discriminate].
  cbn [bind].
  destruct (detect_plate d im) as [boxes|r]; [|discriminate].
  injection Hb as ->. cbn [bind]. rewrite Hrow. cbn [bind getitem0].
  unfold crop_of, shape.
  destruct (expanded_box row ratio (rows im) (cols im))
    as [[[x1n y1n] x2n] y2n].
  destruct (resize _ _ osz); reflexivity.
Qed.

(** X7. Only the first box counts: the outcome of [detect_plate_yolo] is
    decided by the first detection alone (its crop resized, with its
    confidence, or [None] when the resize fails), whatever other boxes the
    detector reports and whatever their confidences. *)
Theorem detect_plate_yolo_first_box (wd : world) (im : image) (path : string)
    (ratio : Q) (osz : Z * Z) (b0 : Box) (rest : list Box)
    (row : Q * Q * Q * Q) :
  detected_boxes wd path im = Some (b0 :: rest) ->
  xyxy b0 = [row] ->
  detect_plate_yolo wd im path ratio osz
  = match resize (interp wd) (crop_of im row ratio) osz with
    | Val crop => Ok (Some (crop, conf b0))
    | Err _ => Ok None
    end.
Proof. intros Hb Hrow. eapply detect_plate_yolo_unfold; eassumption. Qed.

Lemma detect_plate_yolo_first_box_witness :
  detect_plate_yolo Fixtures.two_plates Sample.black "src/models/best.pt"
    Settings.YOLO_EXPAND_RATIO Settings.YOLO_OUTPUT_SIZE
  = Ok (Some (Sample.resized, [60 # 100])).
Proof.
  rewrite (detect_plate_yolo_first_box Fixtures.two_plates Sample.black
             "src/models/best.pt" Settings.YOLO_EXPAND_RATIO
             Settings.YOLO_OUTPUT_SIZE
             (Box_init (10, 20, 50, 40) 0 (60 # 100))
             [Box_init (60, 10, 90, 30) 0 (95 # 100)]
             (10, 20, 50, 40) eq_refl eq_refl).
  reflexivity.
Defined.

Section Axis.

Local Open Scope Q_scope.

(** One axis of a box at least one pixel long: the clamped ends stay
    apart. *)
Lemma clamp_axis_strict (lo hi ratio : Q) (n : nat) :
  0 <= ratio -> 0 <= lo -> lo + 1 <= hi -> hi <= inject_Z (Z.of_nat n) ->
  (0 <= Z.max 0 (int (lo - (hi - lo) * ratio))
     < Z.min (Z.of_nat n) (int (hi + (hi - lo) * ratio)))%Z.
Proof.
  intros Hr Hlo Hle Hhi.
  assert (Hd : 0 <= (hi - lo) * ratio) by (apply Qmult_le_0_compat; lra).
  set (d := (hi - lo) * ratio) in *. clearbody d.
  assert (H1 : (1 <= int (hi + d))%Z).
  { rewrite <- (int_inject_Z 1). apply int_mono.
    change (inject_Z 1) with 1. lra. }
  assert (Hn : (1 <= Z.of_nat n)%Z).
  { rewrite <- (int_inject_Z (Z.of_nat n)), <- (int_inject_Z 1).
    apply int_mono. change (inject_Z 1) with 1. lra. }
  assert (H2 : (int (lo - d) + 1 <= Z.of_nat n)%Z).
  { destruct (Qlt_le_dec (lo - d) 0) as [Hneg|Hpos].
    - assert (int (lo - d) <= 0)%Z by (apply int_nonpos; lra). lia.
    - rewrite int_floor by (now apply Qnum_nonneg).
      rewrite <- (Qfloor_Z (Z.of_nat n)).
      assert (Hs : (Qfloor (lo - d) + 1 <= Qfloor (inject_Z (Z.of_nat n)))%Z).
      { rewrite <- (Qfloor_Z (Qfloor (lo - d) + 1)).
        apply Qfloor_resp_le. rewrite inject_Z_plus.
        change (inject_Z 1) with 1.
        pose proof (Qfloor_le (lo - d)). lra. }
      exact Hs. }
  assert (H3 : (int (lo - d) + 1 <= int (hi + d))%Z).
  { destruct (Qlt_le_dec (lo - d) 0) as [Hneg|Hpos].
    - assert (int (lo - d) <= 0)%Z by (apply int_nonpos; lra). lia.
    - rewrite (int_floor (lo - d)) by (now apply Qnum_nonneg).
      rewrite (int_floor (hi + d)) by (apply Qnum_nonneg; lra).
      rewrite <- (Qfloor_Z (Qfloor (lo - d) + 1)).
      apply Qfloor_resp_le. rewrite inject_Z_plus.
      change (inject_Z 1) with 1.
      pose proof (Qfloor_le (lo - d)). lra. }
  lia.
Qed.

(** One axis: the expanded interval contains the truncated original. *)
Lemma clamp_axis_contains (lo hi ratio : Q) (n : nat) :
  0 <= ratio -> 0 <= lo -> lo <= hi -> hi <= inject_Z (Z.of_nat n) ->
  (Z.max 0 (int (lo - (hi - lo) * ratio)) <= int lo
   /\ int hi <= Z.min (Z.of_nat n) (int (hi + (hi - lo) * ratio)))%Z.
Proof.
  intros Hr Hlo Hle Hhi.
  assert (Hd : 0 <= (hi - lo) * ratio) by (apply Qmult_le_0_compat; lra).
  set (d := (hi - lo) * ratio) in *. clearbody d.
  assert (H1 : (int (lo - d) <= int lo)%Z) by (apply int_mono; lra).
  assert (H2 : (0 <= int lo)%Z) by (now apply int_nonneg).
  assert (H3 : (int hi <= int (hi + d))%Z) by (apply int_mono; lra).
  assert (H4 : (int hi <= Z.of_nat n)%Z).
  { rewrite <- (int_inject_Z (Z.of_nat n)). now apply int_mono. }
  lia.
Qed.

End Axis.

Lemma resize_succeeds (f : image -> nat -> nat -> nat -> nat -> pixel)
    (src : image) (dsize : Z * Z) :
  rows src <> 0%nat -> cols src <> 0%nat ->
  (0 < fst dsize)%Z -> (0 < snd dsize)%Z ->
  exists out, resize f src dsize = Val out.
Proof.
  intros Hr Hc Hw Hh. unfold resize.
  apply Nat.eqb_neq in Hr, Hc. rewrite Hr, Hc. simpl.
  apply Z.leb_gt in Hw, Hh. rewrite Hw, Hh. simpl. eauto.
Qed.

Lemma crop_of_shape (im : image) (row : Q * Q * Q * Q) (ratio : Q)
    (x1n y1n x2n y2n : Z) :
  expanded_box row ratio (rows im) (cols im) = (x1n, y1n, x2n, y2n) ->
  (0 <= x1n <= x2n)%Z -> (x2n <= Z.of_nat (cols im))%Z ->
  (0 <= y1n <= y2n)%Z -> (y2n <= Z.of_nat (rows im))%Z ->
  rows (crop_of im row ratio) = Z.to_nat (y2n - y1n)
  /\ cols (crop_of im row ratio) = Z.to_nat (x2n - x1n).
Proof.
  intros E Hx Hx2 Hy Hy2. unfold crop_of. rewrite E.
  unfold crop_plate, slice2. rewrite !int_inject_Z.
  rewrite (slice_range_inside (rows im) y1n y2n) by assumption.
  rewrite (slice_range_inside (cols im) x1n x2n) by assumption.
  simpl. auto.
Qed.

(** X8. A first detection that lies inside the image and is at least one
    pixel wide and one pixel high always yields a crop, of the requested
    (positive) output size and with the confidence of that detection. *)
Theorem detect_plate_yolo_inside_box (wd : world) (im : image) (path : string)
    (ratio : Q) (osz : Z * Z) (b0 : Box) (rest : list Box)
    (x1 y1 x2 y2 : Q) :
  detected_boxes wd path im = Some (b0 :: rest) ->
  xyxy b0 = [(x1, y1, x2, y2)] ->
  (0 <= ratio)%Q ->
  (0 <= x1)%Q -> (x1 + 1 <= x2)%Q -> (x2 <= inject_Z (Z.of_nat (cols im)))%Q ->
  (0 <= y1)%Q -> (y1 + 1 <= y2)%Q -> (y2 <= inject_Z (Z.of_nat (rows im)))%Q ->
  (0 < fst osz)%Z -> (0 < snd osz)%Z ->
  exists crop,
    detect_plate_yolo wd im path ratio osz = Ok (Some (crop, conf b0))
    /\ (Z.of_nat (cols crop), Z.of_nat (rows crop)) = osz.
Proof.
  intros Hb Hrow Hr Hx1 Hx Hx2 Hy1 Hy Hy2 Hw Hh.
  rewrite (detect_plate_yolo_unfold _ _ _ _ _ _ _ _ _ Hb Hrow).
  pose proof (clamp_axis_strict x1 x2 ratio (cols im) Hr Hx1 Hx Hx2) as Cx.
  pose proof (clamp_axis_strict y1 y2 ratio (rows im) Hr Hy1 Hy Hy2) as Cy.
  destruct (crop_of_shape im (x1, y1, x2, y2) ratio _ _ _ _ eq_refl)
    as [Sr Sc]; try lia.
  destruct (resize_succeeds (interp wd) (crop_of im (x1, y1, x2, y2) ratio) osz)
    as [out Hout]; try assumption; try lia.
  rewrite Hout. exists out. split; [reflexivity|].
  now apply resize_shape in Hout.
Qed.

Lemma detect_plate_yolo_inside_box_witness :
  exists crop,
    detect_plate_yolo Sample.one_plate Sample.black "src/models/best.pt"
      Settings.YOLO_EXPAND_RATIO Settings.YOLO_OUTPUT_SIZE
    = Ok (Some (crop, [87 # 100]))
    /\ (Z.of_nat (cols crop), Z.of_nat (rows crop)) = (512, 256)%Z.
Proof.
  apply (detect_plate_yolo_inside_box Sample.one_plate Sample.black
           "src/models/best.pt" Settings.YOLO_EXPAND_RATIO
           Settings.YOLO_OUTPUT_SIZE
           (Box_init (10, 20, 50, 40) 0 (87 # 100)) [] 10 20 50 40);
    try reflexivity; try (unfold Qle; simpl; lia).
Defined.

(** X9. For a box inside the image and a non-negative [expand_ratio], the
    expansion never shrinks the box: the expanded box contains the box
    with its corners truncated to integers. *)
Theorem expanded_box_contains_box (x1 y1 x2 y2 expand_ratio : Q) (h w : nat)
    (x1_new y1_new x2_new y2_new : Z) :
  expanded_box (x1, y1, x2, y2) expand_ratio h w
    = (x1_new, y1_new, x2_new, y2_new) ->
  (0 <= expand_ratio)%Q ->
  (0 <= x1)%Q -> (x1 <= x2)%Q -> (x2 <= inject_Z (Z.of_nat w))%Q ->
  (0 <= y1)%Q -> (y1 <= y2)%Q -> (y2 <= inject_Z (Z.of_nat h))%Q ->
  (x1_new <= int x1 /\ int x2 <= x2_new
   /\ y1_new <= int y1 /\ int y2 <= y2_new)%Z.
Proof.
  unfold expanded_box. intros E Hr Hx1 Hx Hx2 Hy1 Hy Hy2.
  injection E as <- <- <- <-.
  pose proof (clamp_axis_contains x1 x2 expand_ratio w Hr Hx1 Hx Hx2).
  pose proof (clamp_axis_contains y1 y2 expand_ratio h Hr Hy1 Hy Hy2).
  tauto.
Qed.

Lemma expanded_box_contains_box_witness :
  (9 <= 10 /\ 50 <= 50 /\ 19 <= 20 /\ 40 <= 40)%Z.
Proof.
  apply (expanded_box_contains_box 10 20 50 40 Settings.YOLO_EXPAND_RATIO
           50 100 9 19 50 40 eq_refl);
    unfold Qle; simpl; lia.
Defined.

(** ** workflow.py: every outcome of [process] *)

Lemma detect_plate_yolo_total (wd : world) (im : image) (path : string)
    (ratio : Q) (osz : Z * Z) :
  exists v, detect_plate_yolo wd im path ratio osz = Ok v.
Proof.
  unfold detect_plate_yolo, YOLODetector_init, detect_plate.
  destruct (path_exists wd path); simpl; [|eauto].
  destruct (YOLO wd path) as [m|e]; simpl; [|eauto].
  destruct (m im [0%Z]) as [results|e]; simpl; [|eauto].
  destruct (flat_map _ results) as [|box0 rest]; simpl; [eauto|].
  destruct (xyxy box0) as [|row more]; simpl; [eauto|].
  destruct (expanded_box row ratio (rows im) (cols im))
    as [[[x1n y1n] x2n] y2n].
  destruct (resize _ _ osz); simpl; eauto.
Qed.

Section ProcessOutcomes.

Import Settings.

Variable wd : world.
Variable self : PlateRecognizer.

Let detection (im : image) :=
  detect_plate_yolo wd im (yolo_model_path self)
    YOLO_EXPAND_RATIO YOLO_OUTPUT_SIZE.

Let invalid : raised := SystemExit "ERROR: Input image is invalid.".

Let unpack_error : raised :=
  Exc (TypeError "cannot unpack non-iterable NoneType object").

(** With [DEBUG] off, [process] is decided by the detection and the OCR
    step alone. *)
Lemma process_quiet (im : image) :
  size im <> 0%nat ->
  process wd self (Some im) false
  = match detection im with
    | Ok (Some (crop, c)) =>
        match OcrReader.extract_text (ocr self) (Some crop) with
        | Ok (Some (text, _)) => Ok (Some (text, CList c))
        | Ok None => Ok None
        | Raise r => Raise r
        end
    | Ok None => Raise unpack_error
    | Raise r => Raise r
    end.
Proof.
  intros Hs. unfold process, detection. apply Nat.eqb_neq in Hs. rewrite Hs.
  destruct (detect_plate_yolo _ _ _ _ _) as [[[crop c]|]|r];
    cbn [bind unpack2 ret]; reflexivity.
Qed.

Lemma process_invalid (image : option image) (DEBUG : bool) :
  (image = None \/ exists im, image = Some im /\ size im = 0%nat) ->
  process wd self image DEBUG = Raise invalid.
Proof.
  intros [->|(im & -> & Hs)]; [reflexivity|].
  unfold process. apply Nat.eqb_eq in Hs. now rewrite Hs.
Qed.

Lemma image_valid_dec (image : option image) :
  (image = None \/ exists im, image = Some im /\ size im = 0%nat)
  \/ exists im, image = Some im /\ size im <> 0%nat.
Proof.
  destruct image as [im|]; [|auto].
  destruct (Nat.eq_dec (size im) 0); eauto.
Qed.

End ProcessOutcomes.

(** Unpacks the existentials and conjunctions among the hypotheses and
    closes the goal when they contradict each other. *)
Ltac unpack_hyps :=
  repeat match goal with
         | H : exists _, _ |- _ => destruct H
         | H : _ /\ _ |- _ => destruct H
         | H : _ \/ _ |- _ => destruct H
         | H : Some _ = Some _ |- _ => injection H as H; subst
         | H : Some _ = None |- _ => discriminate H
         end;
  try congruence; try contradiction.

(** X10. With [DEBUG] off, [process] has exactly four outcomes:
    [SystemExit] exactly for an image that is [None] or empty; the
    [TypeError] of unpacking [None] exactly for a valid image without a
    crop; [None] exactly when a crop exists and the OCR step gives no
    result; and otherwise a pair.  It raises nothing else. *)
Theorem process_outcomes (wd : world) (self : PlateRecognizer)
    (image : option image) :
  let detection im :=
    detect_plate_yolo wd im (yolo_model_path self)
      Settings.YOLO_EXPAND_RATIO Settings.YOLO_OUTPUT_SIZE in
  let r := process wd self image false in
  (r = Raise (SystemExit "ERROR: Input image is invalid.")
   <-> (image = None \/ exists im, image = Some im /\ size im = 0%nat))
  /\ (r = Raise (Exc (TypeError "cannot unpack non-iterable NoneType object"))
      <-> exists im, image = Some im /\ size im <> 0%nat
                     /\ detection im = Ok None)
  /\ (r = Ok None
      <-> exists im crop c,
            image = Some im /\ size im <> 0%nat
            /\ detection im = Ok (Some (crop, c))
            /\ OcrReader.extract_text (ocr self) (Some crop) = Ok None)
  /\ (forall x, r = Raise x ->
        x = SystemExit "ERROR: Input image is invalid."
        \/ x = Exc (TypeError "cannot unpack non-iterable NoneType object")).
Proof.
  cbv zeta.
  destruct (image_valid_dec image) as [Hinv|(im & -> & Hs)].
  - rewrite (process_invalid wd self image false Hinv).
    repeat split; intros; try discriminate; auto; unpack_hyps;
      left; congruence.
  - rewrite (process_quiet wd self im Hs).
    destruct (detect_plate_yolo_total wd im (yolo_model_path self)
                Settings.YOLO_EXPAND_RATIO Settings.YOLO_OUTPUT_SIZE)
      as [[[crop c]|] Hd]; rewrite Hd.
    + destruct (extract_text_total (ocr self) (Some crop)) as [[[t q]|] Ho];
        rewrite Ho.
      * repeat split; intros; try discriminate; unpack_hyps.
      * repeat split; intros; try discriminate; unpack_hyps.
        exists im, crop, c. auto.
    + repeat split; intros; try discriminate; unpack_hyps.
      * exists im. auto.
      * injection H as <-. auto.
Qed.

(** X11. With [DEBUG] on, [process] never returns a text: when the crop is
    shown and the OCR step reads a text, formatting the confidence list
    with [.2f] raises a [TypeError]. *)
Theorem process_debug_raises (wd : world) (self : PlateRecognizer)
    (im crop : image) (c : list Q) (text : ocr_text) (q : Q) :
  size im <> 0%nat ->
  detect_plate_yolo wd im (yolo_model_path self)
    Settings.YOLO_EXPAND_RATIO Settings.YOLO_OUTPUT_SIZE
    = Ok (Some (crop, c)) ->
  show_image wd crop "Detected Plate" Settings.SHOW_IMAGE_DELAY_MS = Val tt ->
  OcrReader.extract_text (ocr self) (Some crop) = Ok (Some (text, q)) ->
  process wd self (Some im) true
  = Raise (Exc (TypeError
                  "unsupported format string passed to list.__format__"))
  /\ forall image p, process wd self image true <> Ok (Some p).
Proof.
  intros Hs Hd Hshow Ho. split.
  - unfold process. apply Nat.eqb_neq in Hs. rewrite Hs, Hd.
    cbn [bind unpack2]. rewrite Hshow. cbn [bind call]. rewrite Ho.
    reflexivity.
  - intros image [t cf] H.
    apply process_some in H as (im' & crop' & c' & _ & _ & _ & _ & _ & Hdbg).
    discriminate Hdbg.
Qed.

Lemma process_debug_raises_witness :
  process Sample.one_plate (recognizer (Sample.api_of (Val (TStr "ABC123"))))
    (Some Sample.black) true
  = Raise (Exc (TypeError
                  "unsupported format string passed to list.__format__")).
Proof.
  apply (process_debug_raises Sample.one_plate
           (recognizer (Sample.api_of (Val (TStr "ABC123"))))
           Sample.black Sample.resized [87 # 100] (TStr "ABC123") 100);
    [discriminate | reflexivity | reflexivity | reflexivity].
Defined.

(** X12. A pair returned by [process] always holds a non-empty text and a
    confidence list of exactly one element: the handler's [conf[0]] cannot
    fail on it and its [if not text] test cannot fire. *)
Theorem process_pair_shape (wd : world) (self : PlateRecognizer)
    (image : option image) (DEBUG : bool) (text : ocr_text) (cf : conf_value) :
  process wd self image DEBUG = Ok (Some (text, cf)) ->
  truthy text = true /\ exists q, cf = CList [q].
Proof.
  intros H.
  destruct (process_returns_box_conf _ _ _ _ _ _ H)
    as (im & box0 & rest & q & crop & _ & _ & Hc & -> & _).
  apply process_some in H as (im' & crop' & c' & _ & _ & _ & Ho & _ & _).
  apply extract_text_some in Ho as (im'' & _ & _ & _ & Ht & _).
  split; [exact Ht|]. exists q. now rewrite Hc.
Qed.

Lemma process_pair_shape_witness :
  truthy (TStr "ABC123") = true /\ exists q, CList [87 # 100] = CList [q].
Proof.
  apply (process_pair_shape Sample.one_plate
           (recognizer (Sample.api_of (Val (TStr "ABC123"))))
           (Some Sample.black) false).
  reflexivity.
Defined.

(** ** app.py: every answer of [recognize] *)

Section Answers.

Import Settings.

Variable wd : world.
Variable self : PlateAPI.

Let detection (im : image) :=
  detect_plate_yolo wd im (yolo_model_path (recognizer self))
    YOLO_EXPAND_RATIO YOLO_OUTPUT_SIZE.

Let read (crop : image) :=
  OcrReader.extract_text (ocr (recognizer self)) (Some crop).

Lemma recognize_no_file (request : Request) :
  (files_get request "image" = None
   \/ exists f, files_get request "image" = Some f /\ filename f = "") ->
  recognize wd self request = Ok no_image_uploaded.
Proof.
  unfold recognize. intros [->|(f & -> & ->)]; reflexivity.
Qed.

Lemma recognize_undecodable (request : Request) (f : FileStorage) :
  uploaded request f -> imdecode wd (stream f) = Val None ->
  recognize wd self request = Ok invalid_image_format.
Proof.
  unfold recognize. intros [-> Hn] ->. apply String.eqb_neq in Hn.
  rewrite Hn. reflexivity.
Qed.

Lemma recognize_decode_error (request : Request) (f : FileStorage)
    (e : exception) :
  uploaded request f -> imdecode wd (stream f) = Err e ->
  recognize wd self request = Ok internal_error.
Proof.
  unfold recognize. intros [-> Hn] ->. apply String.eqb_neq in Hn.
  rewrite Hn. reflexivity.
Qed.

Lemma recognize_exit (request : Request) (f : FileStorage) (im : image) :
  uploaded request f -> imdecode wd (stream f) = Val (Some im) ->
  size im = 0%nat ->
  recognize wd self request
  = Raise (SystemExit "ERROR: Input image is invalid.").
Proof.
  unfold recognize. intros [-> Hn] -> Hs. apply String.eqb_neq in Hn.
  rewrite Hn. cbn [bind call]. unfold process.
  apply Nat.eqb_eq in Hs. rewrite Hs. reflexivity.
Qed.

Lemma placeholder_tests (text : ocr_text) :
  placeholder text
  = (match text with
     | TStr s => str_in s ["No text detected."; "________"]
     | TSeq _ => false
     end
     || match text with
        | TSeq parts => join "" parts =? "________"
        | TStr _ => false
        end).
Proof. destruct text; cbn [placeholder]; [now rewrite orb_false_r|reflexivity]. Qed.

Lemma recognize_text (request : Request) (f : FileStorage) (im : image)
    (text : ocr_text) (q : Q) (l : list Q) :
  uploaded request f -> imdecode wd (stream f) = Val (Some im) ->
  process wd (recognizer self) (Some im) false
    = Ok (Some (text, CList (q :: l))) ->
  truthy text = true ->
  recognize wd self request
  = Ok (if placeholder text || (_normalize_text text =? "")
        then not_found
        else plate_found (_normalize_text text) q).
Proof.
  unfold recognize. intros [-> Hn] -> Hp Ht. apply String.eqb_neq in Hn.
  rewrite Hn. cbn [bind call]. rewrite Hp. cbn [bind unpack2 getitem0].
  rewrite Ht, placeholder_tests. cbn [negb].
  destruct (match text with
            | TStr s => str_in s ["No text detected."; "________"]
            | TSeq _ => false
            end); [reflexivity|].
  destruct (match text with
            | TSeq parts => join "" parts =? "________"
            | TStr _ => false
            end); [reflexivity|].
  cbn [orb].
  destruct (_normalize_text text =? ""); reflexivity.
Qed.

(** The crop of the configured output size is never empty. *)
Lemma detection_crop_size (im crop : image) (c : list Q) :
  detection im = Ok (Some (crop, c)) ->
  size crop <> 0%nat /\ exists q, c = [q].
Proof.
  unfold detection. intros Hd.
  apply detect_plate_yolo_some in Hd as (box0 & rest & row & Hb & _ & -> & Hr).
  apply resize_shape in Hr as (Hshape & _).
  pose proof (detected_boxes_init _ _ _ _ Hb) as Hinit.
  apply Forall_inv in Hinit as (row' & k & q & ->).
  split; [|now exists q].
  unfold YOLO_OUTPUT_SIZE in Hshape. injection Hshape as Hc Hr.
  unfold size. lia.
Qed.

(** Every way through the handler, by what the collaborators do. *)
Lemma recognize_cases (request : Request) :
  ((files_get request "image" = None
    \/ exists f, files_get request "image" = Some f /\ filename f = "")
   /\ recognize wd self request = Ok no_image_uploaded)
  \/ exists f, uploaded request f /\
       ((imdecode wd (stream f) = Val None
         /\ recognize wd self request = Ok invalid_image_format)
        \/ ((exists e, imdecode wd (stream f) = Err e)
            /\ recognize wd self request = Ok internal_error)
        \/ exists im, imdecode wd (stream f) = Val (Some im) /\
             ((size im = 0%nat
               /\ recognize wd self request
                  = Raise (SystemExit "ERROR: Input image is invalid."))
              \/ (size im <> 0%nat /\
                  ((detection im = Ok None
                    /\ recognize wd self request = Ok internal_error)
                   \/ exists crop q,
                        detection im = Ok (Some (crop, [q])) /\
                        ((read crop = Ok None
                          /\ recognize wd self request = Ok internal_error)
                         \/ exists text,
                              read crop = Ok (Some (text, 100))
                              /\ truthy text = true
                              /\ process wd (recognizer self) (Some im) false
                                 = Ok (Some (text, CList [q]))
                              /\ recognize wd self request
                                 = Ok (if placeholder text
                                          || (_normalize_text text =? "")
                                       then not_found
                                       else plate_found
                                              (_normalize_text text) q)))))).
Proof.
  destruct (files_get request "image") as [f|] eqn:Ef.
  2: { left. split; [auto|]. apply recognize_no_file. auto. }
  destruct (string_dec (filename f) "") as [Hn|Hn].
  { left. split; [eauto|]. apply recognize_no_file. eauto. }
  right. exists f. assert (Hu : uploaded request f) by (split; assumption).
  split; [exact Hu|].
  destruct (imdecode wd (stream f)) as [[im|]|e] eqn:Ei.
  2: { left. split; [reflexivity|]. now apply recognize_undecodable with f. }
  2: { right; left. split; [eauto|]. now apply recognize_decode_error with f e. }
  right; right. exists im. split; [reflexivity|].
  destruct (Nat.eq_dec (size im) 0) as [Hs|Hs].
  { left. split; [exact Hs|]. now apply recognize_exit with f im. }
  right. split; [exact Hs|].
  pose proof (process_quiet wd (recognizer self) im Hs) as Hp.
  cbv beta zeta in Hp.
  destruct (detect_plate_yolo_total wd im (yolo_model_path (recognizer self))
              YOLO_EXPAND_RATIO YOLO_OUTPUT_SIZE) as [[[crop c]|] Hd].
  - destruct (detection_crop_size im crop c Hd) as (Hcs & q & ->).
    right. exists crop, q. split; [exact Hd|].
    rewrite Hd in Hp.
    destruct (extract_text_total (ocr (recognizer self)) (Some crop))
      as [[[t oq]|] Ho]; rewrite Ho in Hp.
    + right. exists t.
      destruct (extract_text_some _ _ _ _ Ho) as (im' & _ & _ & _ & Ht & ->).
      repeat split; try assumption.
      now apply (recognize_text request f im t q []).
    + left. split; [exact Ho|].
      apply recognize_without_result with f im; auto.
  - left. split; [exact Hd|]. rewrite Hd in Hp.
    apply recognize_without_result with f im; eauto.
Qed.

End Answers.

Ltac recognize_by_cases wd self request :=
  let C := fresh "C" in
  pose proof (recognize_cases wd self request) as C; cbv beta zeta in C;
  destruct C as
    [[Hfile Hr]
    |(f & Hu &
      [[Hdec Hr]
      |[[[e Hdec] Hr]
       |(im & Hdec &
         [[Hs Hr]
         |(Hs &
           [[Hd Hr]
           |(crop & q & Hd &
             [[Ho Hr]
             |(text & Ho & Ht & Hp & Hr)])])])]])].

Section AnswersForward.

Import Settings.

Variable wd : world.
Variable self : PlateAPI.
Variable request : Request.
Variable f : FileStorage.
Variable im : image.

Hypothesis Hu : uploaded request f.
Hypothesis Hdec : imdecode wd (stream f) = Val (Some im).
Hypothesis Hs : size im <> 0%nat.

Lemma recognize_no_crop :
  detect_plate_yolo wd im (yolo_model_path (recognizer self))
    YOLO_EXPAND_RATIO YOLO_OUTPUT_SIZE = Ok None ->
  recognize wd self request = Ok internal_error.
Proof.
  intros Hd. destruct Hu as [Hf Hn].
  apply recognize_without_result with f im; auto.
  right. eexists. rewrite (process_quiet wd (recognizer self) im Hs).
  cbv beta zeta. rewrite Hd. reflexivity.
Qed.

Lemma recognize_no_read (crop : image) (c : list Q) :
  detect_plate_yolo wd im (yolo_model_path (recognizer self))
    YOLO_EXPAND_RATIO YOLO_OUTPUT_SIZE = Ok (Some (crop, c)) ->
  OcrReader.extract_text (ocr (recognizer self)) (Some crop) = Ok None ->
  recognize wd self request = Ok internal_error.
Proof.
  intros Hd Ho. destruct Hu as [Hf Hn].
  apply recognize_without_result with f im; auto.
  left. rewrite (process_quiet wd (recognizer self) im Hs).
  cbv beta zeta. rewrite Hd, Ho. reflexivity.
Qed.

Lemma recognize_with_text (crop : image) (q oq : Q) (text : ocr_text) :
  detect_plate_yolo wd im (yolo_model_path (recognizer self))
    YOLO_EXPAND_RATIO YOLO_OUTPUT_SIZE = Ok (Some (crop, [q])) ->
  OcrReader.extract_text (ocr (recognizer self)) (Some crop)
    = Ok (Some (text, oq)) ->
  recognize wd self request
  = Ok (if placeholder text || (_normalize_text text =? "")
        then not_found
        else plate_found (_normalize_text text) q).
Proof.
  intros Hd Ho.
  destruct (extract_text_some _ _ _ _ Ho) as (im' & _ & _ & _ & Ht & _).
  apply (recognize_text wd self request f im text q []); auto.
  rewrite (process_quiet wd (recognizer self) im Hs).
  cbv beta zeta. rewrite Hd, Ho. reflexivity.
Qed.

End AnswersForward.

(** X13. The handler answers 400 in exactly two situations: no named file
    in the [image] field ("No image uploaded"), or bytes that do not decode
    ("Invalid image format"). *)
Theorem recognize_client_errors (wd : world) (self : PlateAPI)
    (request : Request) (body : list (string * json)) :
  recognize wd self request = Ok (body, 400%Z)
  <-> ((files_get request "image" = None
        \/ exists f, files_get request "image" = Some f /\ filename f = "")
       /\ (body, 400%Z) = no_image_uploaded)
      \/ (exists f, uploaded request f /\ imdecode wd (stream f) = Val None
                    /\ (body, 400%Z) = invalid_image_format).
Proof.
  split.
  - intros H. recognize_by_cases wd self request; rewrite Hr in H;
      try discriminate H.
    + left. split; [exact Hfile|]. now injection H as <-.
    + right. exists f. repeat split; try apply Hu; try assumption.
      now injection H as <-.
    + destruct (placeholder text || (_normalize_text text =? ""));
        discriminate H.
  - intros [[Hfile Hb]|(f & Hu & Hdec & Hb)].
    + rewrite Hb. now apply recognize_no_file.
    + rewrite Hb. now apply recognize_undecodable with f.
Qed.

(** X14. Every response is well formed: the status is 200, 400 or 500;
    [success] is a boolean, true exactly for 200; a failure carries an
    [error] string and a success a boolean [plateFound]. *)
Theorem recognize_well_formed (wd : world) (self : PlateAPI)
    (request : Request) (body : list (string * json)) (status : Z) :
  recognize wd self request = Ok (body, status) ->
  (status = 200 \/ status = 400 \/ status = 500)%Z
  /\ field "success" body = Some (JBool (status =? 200)%Z)
  /\ (status <> 200%Z -> exists msg, field "error" body = Some (JStr msg))
  /\ (status = 200%Z -> exists b, field "plateFound" body = Some (JBool b)).
Proof.
  intros H. recognize_by_cases wd self request; rewrite Hr in H;
    try discriminate H;
    try (destruct (placeholder text || (_normalize_text text =? "")));
    injection H as <- <-; cbn;
    repeat split; auto; intros; try discriminate; try contradiction; eauto.
Qed.

Lemma recognize_well_formed_witness :
  (200 = 200 \/ 200 = 400 \/ 200 = 500)%Z
  /\ field "success" (fst (plate_found "ABC123" (87 # 100)))
     = Some (JBool (200 =? 200)%Z)
  /\ (200%Z <> 200%Z ->
      exists msg, field "error" (fst (plate_found "ABC123" (87 # 100)))
                  = Some (JStr msg))
  /\ (200%Z = 200%Z ->
      exists b, field "plateFound" (fst (plate_found "ABC123" (87 # 100)))
                = Some (JBool b)).
Proof.
  apply (recognize_well_formed Sample.one_plate
           (Sample.api_of (Val (TStr "ABC123"))) Sample.upload).
  reflexivity.
Defined.

(** X15. The handler itself raises in exactly one situation: the upload
    decodes to an array without pixels, and the [SystemExit] of [process]
    passes through [except Exception].  No [Exception] ever leaves it. *)
Theorem recognize_exits (wd : world) (self : PlateAPI) (request : Request)
    (x : raised) :
  recognize wd self request = Raise x
  <-> x = SystemExit "ERROR: Input image is invalid."
      /\ exists f im, uploaded request f
                      /\ imdecode wd (stream f) = Val (Some im)
                      /\ size im = 0%nat.
Proof.
  split.
  - intros H. recognize_by_cases wd self request; rewrite Hr in H;
      try discriminate H.
    injection H as <-. split; [reflexivity|]. exists f, im. auto.
  - intros (-> & f & im & Hu & Hdec & Hs). now apply recognize_exit with f im.
Qed.

(** X16. The success path, end to end: the handler answers with
    [plateFound] true, a license number and a confidence exactly when the
    upload decodes to a non-empty image, the detection yields a crop, and
    the OCR step reads on it a text that is no placeholder and does not
    normalize to the empty string; the license number is the normalized
    text and the confidence that of the detection. *)
Theorem recognize_reads_plate (wd : world) (self : PlateAPI)
    (request : Request) (license : string) (confidence : Q) :
  recognize wd self request = Ok (plate_found license confidence)
  <-> exists f im crop text,
        uploaded request f
        /\ imdecode wd (stream f) = Val (Some im) /\ size im <> 0%nat
        /\ detect_plate_yolo wd im (yolo_model_path (recognizer self))
             Settings.YOLO_EXPAND_RATIO Settings.YOLO_OUTPUT_SIZE
           = Ok (Some (crop, [confidence]))
        /\ OcrReader.extract_text (ocr (recognizer self)) (Some crop)
           = Ok (Some (text, 100))
        /\ placeholder text = false
        /\ license = _normalize_text text /\ license <> "".
Proof.
  split.
  - intros H. recognize_by_cases wd self request; rewrite Hr in H;
      try discriminate H.
    destruct (placeholder text) eqn:Epl; [discriminate H|].
    destruct (_normalize_text text =? "") eqn:En; [discriminate H|].
    cbn [orb] in H. injection H as <- <-.
    apply String.eqb_neq in En.
    exists f, im, crop, text. repeat split; try apply Hu; assumption.
  - intros (f & im & crop & text & Hu & Hdec & Hs & Hd & Ho & Hpl & -> & Hn).
    rewrite (recognize_with_text wd self request f im Hu Hdec Hs
               crop confidence 100 text Hd Ho).
    apply String.eqb_neq in Hn. now rewrite Hpl, Hn.
Qed.

(** X17. The handler answers 500 in exactly three situations: decoding
    raises, the detection yields no crop for a non-empty image, or the OCR
    step yields no result on the crop. *)
Theorem recognize_server_errors (wd : world) (self : PlateAPI)
    (request : Request) (body : list (string * json)) :
  recognize wd self request = Ok (body, 500%Z)
  <-> (body, 500%Z) = internal_error
      /\ exists f,
           uploaded request f
           /\ ((exists e, imdecode wd (stream f) = Err e)
               \/ exists im,
                    imdecode wd (stream f) = Val (Some im)
                    /\ size im <> 0%nat
                    /\ (detect_plate_yolo wd im
                          (yolo_model_path (recognizer self))
                          Settings.YOLO_EXPAND_RATIO Settings.YOLO_OUTPUT_SIZE
                        = Ok None
                        \/ exists crop c,
                             detect_plate_yolo wd im
                               (yolo_model_path (recognizer self))
                               Settings.YOLO_EXPAND_RATIO
                               Settings.YOLO_OUTPUT_SIZE
                             = Ok (Some (crop, c))
                             /\ OcrReader.extract_text
                                  (ocr (recognizer self)) (Some crop)
                                = Ok None)).
Proof.
  split.
  - intros H. recognize_by_cases wd self request; rewrite Hr in H;
      try discriminate H.
    + injection H as <-. split; [reflexivity|]. exists f. eauto.
    + injection H as <-. split; [reflexivity|]. exists f.
      split; [exact Hu|]. right. exists im. auto.
    + injection H as <-. split; [reflexivity|]. exists f.
      split; [exact Hu|]. right. exists im. repeat split; try assumption.
      right. eauto.
    + destruct (placeholder text || (_normalize_text text =? ""));
        discriminate H.
  - intros (Hb & f & Hu & [[e Hdec]|(im & Hdec & Hs & [Hd|(crop & c & Hd & Ho)])]);
      rewrite Hb.
    + now apply recognize_decode_error with f e.
    + now apply recognize_no_crop with f im.
    + now apply recognize_no_read with f im crop c.
Qed.

(** X18. A license number sent to the client contains no underscore, no
    space and none of the letters [O], [o], [i], [I]. *)
Theorem license_number_clean (wd : world) (self : PlateAPI)
    (request : Request) (body : list (string * json)) (status : Z)
    (license : string) (a : ascii) :
  recognize wd self request = Ok (body, status) ->
  field "licenseNumber" body = Some (JStr license) ->
  In a rewritten -> occurs a license = false.
Proof.
  intros H Hl Ha. recognize_by_cases wd self request; rewrite Hr in H;
    try discriminate H;
    try (destruct (placeholder text || (_normalize_text text =? "")));
    injection H as <- <-; try discriminate Hl.
  cbn in Hl. injection Hl as <-. now apply normalized_clean.
Qed.

Lemma license_number_clean_witness :
  occurs "O" "AB0121" = false.
Proof.
  apply (license_number_clean Sample.one_plate
           (Sample.api_of (Val (TStr "AB0 12I"))) Sample.upload
           (fst (plate_found "AB0121" (87 # 100))) 200%Z "AB0121" "O"%char).
  - reflexivity.
  - reflexivity.
  - simpl. tauto.
Defined.

(** ** Start-up: where the recognizer looks for the weights *)

Section Paths.

Import Startup.

Lemma startswith_sep_app (s t : string) :
  startswith_sep s = true -> startswith_sep (s ++ t) = true.
Proof.
  unfold startswith_sep. destruct s as [|c s]; [discriminate|].
  cbn [String.prefix append].
  destruct (ascii_dec "/" c); [|discriminate].
  intros _. destruct (s ++ t); reflexivity.
Qed.

Lemma endswith_sep_app (s t : string) :
  t <> "" -> endswith_sep (s ++ t) = endswith_sep t.
Proof.
  intros Ht. induction s as [|c s IH]; [reflexivity|].
  simpl. destruct (s ++ t) as [|c' u] eqn:E; [|exact IH].
  destruct s; simpl in E; [contradiction|discriminate].
Qed.

Lemma append_nonempty (s t : string) : t <> "" -> (s ++ t =? "") = false.
Proof.
  intros Ht. apply String.eqb_neq. destruct s; simpl; [exact Ht|discriminate].
Qed.

Lemma join_absolute (a b : string) (p : list string) :
  startswith_sep b = true ->
  os_path_join a (p ++ [b]) = b.
Proof.
  intros Hb. unfold os_path_join. rewrite fold_left_app. simpl.
  now rewrite Hb.
Qed.

Lemma YOLO_MODEL_PATH_absolute (SRC_DIR : string) :
  startswith_sep SRC_DIR = true ->
  startswith_sep (YOLO_MODEL_PATH SRC_DIR) = true.
Proof.
  intros H. unfold YOLO_MODEL_PATH, os_path_join. simpl.
  destruct ((SRC_DIR =? "") || endswith_sep SRC_DIR).
  - destruct ((SRC_DIR ++ "models" =? "") || endswith_sep (SRC_DIR ++ "models"));
      repeat apply startswith_sep_app; exact H.
  - destruct ((SRC_DIR ++ "/models" =? "")
              || endswith_sep (SRC_DIR ++ "/models"));
      repeat apply startswith_sep_app; exact H.
Qed.

End Paths.

(** X19. [PlateAPI] hands the absolute [YOLO_MODEL_PATH] to a parameter
    that [PlateRecognizer] joins onto its own [../models] directory; as an
    absolute component discards what precedes it, the recognizer looks for
    the weights at [YOLO_MODEL_PATH] itself, wherever workflow.py lies.
    Construction fails exactly when the OCR model cannot be loaded. *)
Theorem plate_api_weights_path (base_dir SRC_DIR : string)
    (LicensePlateRecognizer : string -> result OcrReader.LicensePlateRecognizer) :
  Startup.startswith_sep SRC_DIR = true ->
  (forall api,
      Startup.PlateAPI_init base_dir SRC_DIR LicensePlateRecognizer = Ok api ->
      yolo_model_path (recognizer api) = Startup.YOLO_MODEL_PATH SRC_DIR)
  /\ (forall x,
        Startup.PlateAPI_init base_dir SRC_DIR LicensePlateRecognizer = Raise x
        <-> exists e,
              LicensePlateRecognizer Startup.OCR_MODEL_NAME = Err e
              /\ x = Exc e).
Proof.
  intros Habs. unfold Startup.PlateAPI_init, Startup.PlateRecognizer_init,
    Startup.OCRReader_init.
  destruct (LicensePlateRecognizer Startup.OCR_MODEL_NAME) as [m|e];
    cbn [bind call ret].
  - split.
    + intros api [= <-]. cbn [recognizer yolo_model_path].
      apply (join_absolute base_dir (Startup.YOLO_MODEL_PATH SRC_DIR)
               [".."; "models"]).
      now apply YOLO_MODEL_PATH_absolute.
    + intros x. split; [discriminate|]. intros (e & He & _). discriminate.
  - split; [discriminate|].
    intros x. split.
    + intros [= <-]. eauto.
    + intros (e' & [= <-] & ->). reflexivity.
Qed.

Lemma plate_api_weights_path_witness :
  exists api,
    Startup.PlateAPI_init "/srv/plates/src/core" "/srv/plates/src"
      (Fixtures.recognizer_of (Val (TStr "ABC123"))) = Ok api
    /\ yolo_model_path (recognizer api) = "/srv/plates/src/models/best.pt".
Proof.
  eexists. split; [reflexivity|].
  apply (proj1 (plate_api_weights_path "/srv/plates/src/core" "/srv/plates/src"
                  (Fixtures.recognizer_of (Val (TStr "ABC123"))) eq_refl)).
  reflexivity.
Defined.

(** X20. With a relative model name, as in the default ["best.pt"], the
    recognizer looks for the weights in [../models] next to workflow.py:
    at [base_dir/../models/name]. *)
Theorem plate_recognizer_relative_path (base_dir : string)
    (LicensePlateRecognizer : string -> result OcrReader.LicensePlateRecognizer)
    (yolo_model_name ocr_model_name : string) (r : PlateRecognizer) :
  base_dir <> "" -> Startup.endswith_sep base_dir = false ->
  Startup.startswith_sep yolo_model_name = false ->
  Startup.PlateRecognizer_init base_dir LicensePlateRecognizer
    yolo_model_name ocr_model_name = Ok r ->
  yolo_model_path r = base_dir ++ "/../models/" ++ yolo_model_name.
Proof.
  intros Hne Hend Hrel.
  unfold Startup.PlateRecognizer_init, Startup.OCRReader_init.
  destruct (LicensePlateRecognizer ocr_model_name) as [m|e];
    cbn [bind call ret]; [|discriminate].
  intros [= <-]. cbn [yolo_model_path].
  unfold Startup.os_path_join. cbn [fold_left].
  apply String.eqb_neq in Hne.
  change (Startup.startswith_sep "..") with false.
  change (Startup.startswith_sep "models") with false.
  rewrite Hrel, Hne, Hend. cbn [orb].
  rewrite (append_nonempty base_dir "/..") by discriminate.
  rewrite (endswith_sep_app base_dir "/..") by discriminate.
  cbn [Startup.endswith_sep Ascii.eqb Bool.eqb orb].
  rewrite (append_nonempty (base_dir ++ "/..") "/models") by discriminate.
  rewrite (endswith_sep_app (base_dir ++ "/..") "/models") by discriminate.
  cbn [Startup.endswith_sep Ascii.eqb Bool.eqb orb].
  now rewrite !append_assoc.
Qed.

Lemma plate_recognizer_relative_path_witness :
  exists r,
    Startup.PlateRecognizer_init "/srv/plates/src/core"
      (Fixtures.recognizer_of (Val (TStr "ABC123")))
      "best.pt" "cct-xs-v1-global-model" = Ok r
    /\ yolo_model_path r = "/srv/plates/src/core/../models/best.pt".
Proof.
  eexists. split; [reflexivity|].
  apply (plate_recognizer_relative_path "/srv/plates/src/core"
           (Fixtures.recognizer_of (Val (TStr "ABC123")))
           "best.pt" "cct-xs-v1-global-model");
    [discriminate | reflexivity | reflexivity | reflexivity].
Defined.

(** ** How the detection and the OCR step compose *)

(** X21. A crop that the detection returns at the configured output size
    is never empty, so the size guard of [extract_text] does not fire in
    the pipeline: the OCR model is run on every such crop and alone
    decides the result. *)
Theorem ocr_runs_on_every_crop (wd : world) (reader : OcrReader.OCRReader)
    (im crop : image) (path : string) (c : list Q) :
  detect_plate_yolo wd im path
    Settings.YOLO_EXPAND_RATIO Settings.YOLO_OUTPUT_SIZE
    = Ok (Some (crop, c)) ->
  shape crop = (256, 512)%nat
  /\ OcrReader.extract_text reader (Some crop)
     = Ok match OcrReader.run (OcrReader.ocr reader) crop with
          | Val text => if truthy text then Some (text, 100) else None
          | Err _ => None
          end.
Proof.
  intros Hd.
  apply detect_plate_yolo_some in Hd as (box0 & rest & row & _ & _ & _ & Hr).
  apply resize_shape in Hr as (Hshape & _).
  unfold Settings.YOLO_OUTPUT_SIZE in Hshape. injection Hshape as Hc Hr.
  assert (Hrows : rows crop = 256%nat) by lia.
  assert (Hcols : cols crop = 512%nat) by lia.
  split; [unfold shape; now rewrite Hrows, Hcols|].
  unfold OcrReader.extract_text, size. rewrite Hrows, Hcols.
  change (256 * 512 * 3 =? 0)%nat with false.
  destruct (OcrReader.run (OcrReader.ocr reader) crop) as [t|e];
    [|reflexivity].
  destruct (truthy t); reflexivity.
Qed.

Lemma ocr_runs_on_every_crop_witness :
  shape Sample.resized = (256, 512)%nat
  /\ OcrReader.extract_text (Sample.reader_of (Val (TStr "ABC123")))
       (Some Sample.resized)
     = Ok (Some (TStr "ABC123", 100)).
Proof.
  apply (ocr_runs_on_every_crop Sample.one_plate
           (Sample.reader_of (Val (TStr "ABC123")))
           Sample.black Sample.resized "src/models/best.pt" [87 # 100]).
  reflexivity.
Defined.
